(** * extra_run_perf_eval.py: log scanner, table assembler, relative change

    A shallow embedding of [process_files], of the part of [main] that calls
    it, and of the derived column computed in
    [generate_objective_function_plots].

    Python values are modelled as the script has them: [str] as [string]
    (characters are code points below 256), the working variables of the
    scanner as a record, a raised exception as the [Err] case of [result],
    binary64 numbers as primitive floats.  The functions of the Python
    runtime and of pandas whose result the script only passes on are section
    variables: the builtin [float], the calendar conversion behind
    [pandas.to_datetime], and the index sort behind [DataFrame.sort_values]. *)

From Stdlib Require Import List String Ascii Bool Arith NArith ZArith Lia.
From Stdlib Require Import Permutation Sorted PrimFloat.
Import ListNotations.

#[local] Open Scope string_scope.
#[local] Open Scope list_scope.

(** ** Exceptions *)

Inductive exn : Type :=
| ValueError
| IndexError
| KeyError (key : string).

Inductive result (A : Type) : Type :=
| Ok (a : A)
| Err (e : exn).

Arguments Ok {A} a.
Arguments Err {A} e.

Definition bind {A B : Type} (m : result A) (k : A -> result B) : result B :=
  match m with
  | Ok a => k a
  | Err e => Err e
  end.

Notation "x <- m ;; k" := (bind m (fun x => k))
  (at level 61, m at next level, right associativity).

(** ** The methods of [str] the scanner calls *)

Module Str.

(** [c.isspace()] for a code point below 256. *)
Definition isspace (c : ascii) : bool :=
  let n := N_of_ascii c in
  (((9 <=? n) && (n <=? 13)) || ((28 <=? n) && (n <=? 32))
   || (n =? 133) || (n =? 160))%N.

Fixpoint lstrip (s : string) : string :=
  match s with
  | String c s' => if isspace c then lstrip s' else s
  | EmptyString => EmptyString
  end.

Fixpoint rstrip (s : string) : string :=
  match s with
  | String c s' =>
      match rstrip s' with
      | EmptyString => if isspace c then EmptyString else String c EmptyString
      | t => String c t
      end
  | EmptyString => EmptyString
  end.

(** [s.strip()] *)
Definition strip (s : string) : string := rstrip (lstrip s).

(** [s.startswith(p)] *)
Definition startswith (p s : string) : bool := String.prefix p s.

(** [sub in s] *)
Fixpoint contains (sub s : string) : bool :=
  String.prefix sub s
  || match s with
     | String _ s' => contains sub s'
     | EmptyString => false
     end.

(** [s.split(sep)] for a separator of one character: the pieces between the
    separators, one more than there are separators. *)
Fixpoint split (sep : ascii) (s : string) : list string :=
  match s with
  | EmptyString => [EmptyString]
  | String c s' =>
      if Ascii.eqb c sep then EmptyString :: split sep s'
      else match split sep s' with
           | p :: ps => String c p :: ps
           | [] => [String c EmptyString]
           end
  end.

(** [l[i]] for [i >= 0]. *)
Definition getitem (l : list string) (i : nat) : result string :=
  match nth_error l i with
  | Some x => Ok x
  | None => Err IndexError
  end.

(** [l[-1]] *)
Definition getlast (l : list string) : result string :=
  match l with
  | [] => Err IndexError
  | _ :: _ => Ok (last l EmptyString)
  end.

End Str.

(** ** Regular expressions: the fragment the two patterns use

    Matching is by backtracking with ordered alternatives, as in [re]; a
    group records the text it matched. *)

Inductive regex : Type :=
| Chr (c : ascii)
| Rng (lo hi : ascii)
| Cat (r1 r2 : regex)
| Alt (r1 r2 : regex)
| Grp (r : regex).

Definition in_range (lo hi c : ascii) : bool :=
  ((N_of_ascii lo <=? N_of_ascii c) && (N_of_ascii c <=? N_of_ascii hi))%N.

Fixpoint rmatch {A : Type} (r : regex) (s : string) (groups : list string)
    (k : string -> list string -> option A) : option A :=
  match r with
  | Chr c =>
      match s with
      | String d s' => if Ascii.eqb d c then k s' groups else None
      | EmptyString => None
      end
  | Rng lo hi =>
      match s with
      | String d s' => if in_range lo hi d then k s' groups else None
      | EmptyString => None
      end
  | Cat r1 r2 => rmatch r1 s groups (fun s' g' => rmatch r2 s' g' k)
  | Alt r1 r2 =>
      match rmatch r1 s groups k with
      | Some x => Some x
      | None => rmatch r2 s groups k
      end
  | Grp r1 =>
      rmatch r1 s groups
        (fun s' g' =>
           k s' (g' ++ [String.substring 0 (String.length s - String.length s') s]))
  end.

(** [r.match(s)]: the groups of a match at the start of [s] and its end. *)
Definition re_match (r : regex) (s : string) : option (nat * list string) :=
  rmatch r s [] (fun s' g => Some (String.length s - String.length s', g)).

(** [r.search(s)]: the first position that matches, left to right. *)
Fixpoint re_search (r : regex) (s : string) : option (list string) :=
  match re_match r s with
  | Some (_, g) => Some g
  | None =>
      match s with
      | String _ s' => re_search r s'
      | EmptyString => None
      end
  end.

(** [\d] *)
Definition digit : regex := Rng "0" "9".

Definition seq_re (rs : list regex) (r : regex) : regex :=
  fold_right Cat r rs.

Definition d2 : regex := Cat digit digit.
Definition d4 : regex := Cat d2 d2.

(** [re.compile(r'(\d{4}-\d{2}-\d{2}_\d{2}-\d{2}-\d{2})')] *)
Definition timestamp_pattern : regex :=
  Grp (seq_re [d4; Chr "-"; d2; Chr "-"; d2; Chr "_"; d2; Chr "-"; d2; Chr "-"] d2).

(** The name under which [process_files] files a log: [match.group(1)] of the
    first match in the stem, or the placeholder. *)
Definition timestamp_of (stem : string) : string :=
  match re_search timestamp_pattern stem with
  | Some g => nth 0 g ""
  | None => "Unknown"
  end.

(** ** Values of the working variables and of a record *)

(** [is_feasible]: the initial [False], or the text of the flag. *)
Inductive feasible : Type :=
| FBool (b : bool)
| FStr (s : string).

(** [objective_value], [execution_time]: the initial [0], or a float. *)
Inductive number : Type :=
| PyInt (z : Z)
| PyFloat (f : float).

(** One dictionary appended to [data]; [T] is the type of the Timestamp
    column, [string] as collected and [option Z] once parsed. *)
Record run_record (T : Type) : Type := mk_record {
  Instance : string;
  File : string;
  Timestamp : T;
  Is_Solution_Feasible : feasible;
  Objective_Function_Value : number;
  Execution_Time : number
}.

Arguments mk_record {T}.
Arguments Instance {T}.
Arguments File {T}.
Arguments Timestamp {T}.
Arguments Is_Solution_Feasible {T}.
Arguments Objective_Function_Value {T}.
Arguments Execution_Time {T}.

Definition record_keys : list string :=
  ["Instance"; "File"; "Timestamp"; "Is Solution Feasible";
   "Objective Function Value"; "Execution Time"].

(** The four variables the line loop updates. *)
Record state : Type := mk_state {
  instance_name : option string;
  is_feasible : feasible;
  objective_value : number;
  execution_time : number
}.

(** Lines 46-49 and 76-79. *)
Definition defaults : state :=
  mk_state None (FBool false) (PyInt 0) (PyInt 0).

(** [if instance_name:] *)
Definition truthy (name : option string) : bool :=
  match name with
  | Some (String _ _) => true
  | _ => false
  end.

(** A [*.txt] file as [process_files] sees it: [filename.stem] and the list
    [file.readlines()] returns. *)
Record log_file : Type := mk_log {
  stem : string;
  content : list string
}.

(** ** A table *)

Record DataFrame (T : Type) : Type := mk_frame {
  columns : list string;
  index : list nat;
  rows : list (run_record T)
}.

Arguments mk_frame {T}.
Arguments columns {T}.
Arguments index {T}.
Arguments rows {T}.

(** [pd.DataFrame(data)] for a list of dictionaries with the same keys: no
    dictionary, no column. *)
Definition frame_of_records (data : list (run_record string)) : DataFrame string :=
  mk_frame (match data with [] => [] | _ :: _ => record_keys end)
           (seq 0 (List.length data)) data.

(** [l[ix]]: the elements of [l] at the positions [ix]. *)
Definition take {A : Type} (ix : list nat) (l : list A) : list A :=
  flat_map (fun i => match nth_error l i with Some x => [x] | None => [] end) ix.

Definition enumerate {A : Type} (l : list A) : list (nat * A) :=
  combine (seq 0 (List.length l)) l.

(** The positions and values that are not missing, and the positions that
    are. *)
Definition notna (keys : list (option Z)) : list (nat * Z) :=
  flat_map (fun p => match snd p with Some z => [(fst p, z)] | None => [] end)
           (enumerate keys).

Definition isna (keys : list (option Z)) : list nat :=
  flat_map (fun p => match snd p with Some _ => [] | None => [fst p] end)
           (enumerate keys).

(** ** The format of [to_datetime]

    The expression strptime builds for ["%Y-%m-%d_%H-%M-%S"]. *)

Definition alts (rs : list regex) (r : regex) : regex := fold_right Alt r rs.

Definition re_Y : regex := Grp d4.
Definition re_m : regex :=
  Grp (alts [Cat (Chr "1") (Rng "0" "2"); Cat (Chr "0") (Rng "1" "9")] (Rng "1" "9")).
Definition re_d : regex :=
  Grp (alts [Cat (Chr "3") (Rng "0" "1"); Cat (Rng "1" "2") digit;
             Cat (Chr "0") (Rng "1" "9"); Rng "1" "9"]
            (Cat (Chr " ") (Rng "1" "9"))).
Definition re_H : regex :=
  Grp (alts [Cat (Chr "2") (Rng "0" "3"); Cat (Rng "0" "1") digit] digit).
Definition re_M : regex := Grp (alts [Cat (Rng "0" "5") digit] digit).
Definition re_S : regex :=
  Grp (alts [Cat (Chr "6") (Rng "0" "1"); Cat (Rng "0" "5") digit] digit).

Definition format_regex : regex :=
  seq_re [re_Y; Chr "-"; re_m; Chr "-"; re_d; Chr "_"; re_H; Chr "-"; re_M; Chr "-"]
         re_S.

(** [int(s)] for the text of a group: digits, after a blank at most. *)
Definition int_of (s : string) : N :=
  fold_left
    (fun n c => if in_range "0" "9" c then (10 * n + (N_of_ascii c - 48))%N else n)
    (list_ascii_of_string s) 0%N.

Section Program.

(** The builtin [float] on a string: [None] when it raises ValueError. *)
Variable py_float : string -> option float.

(** The instant of a matched date and time, in the unit of the column, or
    [None] (NaT) when the fields name no instant pandas can hold. *)
Variable datetime64 : N -> N -> N -> N -> N -> N -> option Z.

(** [a.argsort(kind='quicksort')] on the values that are not missing, the
    default [kind] of [sort_values]. *)
Variable argsort : list Z -> list nat.

Definition float_of (s : string) : result float :=
  match py_float s with
  | Some f => Ok f
  | None => Err ValueError
  end.

(** ** The scanner: lines 51-79 *)

Definition scan_line (stem timestamp : string) (st : state)
    (data : list (run_record string)) (line : string)
  : result (state * list (run_record string)) :=
  let line := Str.strip line in
  if Str.startswith "./" line then
    name <- Str.getlast (Str.split "/" line) ;;
    Ok (mk_state (Some name) (is_feasible st) (objective_value st)
                 (execution_time st), data)
  else if Str.contains "Is solution feasible:" line then
    v <- Str.getitem (Str.split ":" line) 1 ;;
    Ok (mk_state (instance_name st) (FStr (Str.strip v)) (objective_value st)
                 (execution_time st), data)
  else if Str.contains "Objective function value:" line then
    v <- Str.getitem (Str.split ":" line) 1 ;;
    x <- float_of (Str.strip v) ;;
    Ok (mk_state (instance_name st) (is_feasible st) (PyFloat x)
                 (execution_time st), data)
  else if Str.contains "Execution time:" line then
    v <- Str.getitem (Str.split ":" line) 1 ;;
    tok <- Str.getitem (Str.split " " (Str.strip v)) 0 ;;
    t <- float_of tok ;;
    match instance_name st with
    | Some (String c n) =>
        Ok (defaults,
            data ++ [mk_record (String c n) stem timestamp (is_feasible st)
                               (objective_value st) (PyFloat t)])
    | _ =>
        Ok (mk_state (instance_name st) (is_feasible st) (objective_value st)
                     (PyFloat t), data)
    end
  else Ok (st, data).

(** The loop [for line in content]. *)
Fixpoint scan_lines (stem timestamp : string) (st : state)
    (data : list (run_record string)) (lines : list string)
  : result (state * list (run_record string)) :=
  match lines with
  | [] => Ok (st, data)
  | line :: rest =>
      sd <- scan_line stem timestamp st data line ;;
      scan_lines stem timestamp (fst sd) (snd sd) rest
  end.

(** The body of [for filename in ...]: lines 39-79. *)
Definition scan_file (data : list (run_record string)) (f : log_file)
  : result (list (run_record string)) :=
  sd <- scan_lines (stem f) (timestamp_of (stem f)) defaults data (content f) ;;
  Ok (snd sd).

(** The loop over the files, in the order [rglob] yields them. *)
Fixpoint scan_files (data : list (run_record string)) (files : list log_file)
  : result (list (run_record string)) :=
  match files with
  | [] => Ok data
  | f :: rest =>
      data' <- scan_file data f ;;
      scan_files data' rest
  end.

(** ** The assembler: lines 81-85 *)

(** One cell of [pd.to_datetime(..., format="%Y-%m-%d_%H-%M-%S",
    errors='coerce')]: the whole text has to match the format. *)
Definition to_datetime (s : string) : option Z :=
  match re_match format_regex s with
  | Some (e, [gY; gm; gd; gH; gM; gS]) =>
      if Nat.eqb e (String.length s)
      then datetime64 (int_of gY) (int_of gm) (int_of gd)
                      (int_of gH) (int_of gM) (int_of gS)
      else None
  | _ => None
  end.

Definition parse_cell (r : run_record string) : run_record (option Z) :=
  mk_record (Instance r) (File r) (to_datetime (Timestamp r))
            (Is_Solution_Feasible r) (Objective_Function_Value r) (Execution_Time r).

(** [df["Timestamp"] = pd.to_datetime(df["Timestamp"], ...)]: reading a
    column the table does not have raises KeyError. *)
Definition parse_timestamps (df : DataFrame string) : result (DataFrame (option Z)) :=
  if existsb (String.eqb "Timestamp") (columns df)
  then Ok (mk_frame (columns df) (index df) (map parse_cell (rows df)))
  else Err (KeyError "Timestamp").

(** The indexer of [sort_values]: the sorted positions of the values that are
    not missing, then the missing ones as they stand ([na_position='last']). *)
Definition nargsort (keys : list (option Z)) : list nat :=
  take (argsort (map snd (notna keys))) (map fst (notna keys)) ++ isna keys.

(** [df.sort_values(by="Timestamp")] *)
Definition sort_values (df : DataFrame (option Z)) : DataFrame (option Z) :=
  let ix := nargsort (map Timestamp (rows df)) in
  mk_frame (columns df) (take ix (index df)) (take ix (rows df)).

Definition process_files (files : list log_file) : result (DataFrame (option Z)) :=
  data <- scan_files [] files ;;
  df <- parse_timestamps (frame_of_records data) ;;
  Ok (sort_values df).

(** ** [main], up to [to_csv]: lines 258-261

    The file written is the table without its index: the header and the
    rows. *)
Definition to_csv (df : DataFrame (option Z))
  : list string * list (run_record (option Z)) :=
  (columns df, rows df).

Definition main (files : list log_file)
  : result (list string * list (run_record (option Z))) :=
  performance_df <- process_files files ;;
  Ok (to_csv performance_df).

End Program.

(** ** The words of the specification about a line *)

(** [c] occurs in [s]. *)
Fixpoint has (c : ascii) (s : string) : bool :=
  match s with
  | String d s' => Ascii.eqb d c || has c s'
  | EmptyString => false
  end.

(** The last character of [s] is [c]. *)
Fixpoint ends_with (c : ascii) (s : string) : bool :=
  match s with
  | String d EmptyString => Ascii.eqb d c
  | String _ s' => ends_with c s'
  | EmptyString => false
  end.

(** The segment after the last [c]; all of [s] when there is none. *)
Fixpoint text_after_last (c : ascii) (s : string) : string :=
  match s with
  | String d s' =>
      if has c s' then text_after_last c s'
      else if Ascii.eqb d c then s' else s
  | EmptyString => EmptyString
  end.

(** The entire text after the first [c]. *)
Fixpoint text_after_first (c : ascii) (s : string) : string :=
  match s with
  | String d s' => if Ascii.eqb d c then s' else text_after_first c s'
  | EmptyString => EmptyString
  end.

(** The text up to the first [c]; all of [s] when there is none. *)
Fixpoint text_before_first (c : ascii) (s : string) : string :=
  match s with
  | String d s' => if Ascii.eqb d c then EmptyString else String d (text_before_first c s')
  | EmptyString => EmptyString
  end.

(** The first token when tokens are delimited by any white space. *)
Fixpoint first_token (s : string) : string :=
  match s with
  | String d s' => if Str.isspace d then EmptyString else String d (first_token s')
  | EmptyString => EmptyString
  end.

(** The four shapes of a line, in the order the scanner tests them. *)
Definition is_instance_line (l : string) : bool :=
  Str.startswith "./" (Str.strip l).

Definition is_feasible_line (l : string) : bool :=
  negb (is_instance_line l)
  && Str.contains "Is solution feasible:" (Str.strip l).

Definition is_objective_line (l : string) : bool :=
  negb (is_instance_line l)
  && negb (Str.contains "Is solution feasible:" (Str.strip l))
  && Str.contains "Objective function value:" (Str.strip l).

Definition is_time_line (l : string) : bool :=
  negb (is_instance_line l)
  && negb (Str.contains "Is solution feasible:" (Str.strip l))
  && negb (Str.contains "Objective function value:" (Str.strip l))
  && Str.contains "Execution time:" (Str.strip l).

(** What a line of each shape carries. *)
Definition instance_of (l : string) : string :=
  text_after_last "/" (Str.strip l).

(** The text after the first colon of the line, up to the next colon when
    there is one. *)
Definition colon_field (l : string) : string :=
  text_before_first ":" (text_after_first ":" (Str.strip l)).

Definition flag_of (l : string) : string := Str.strip (colon_field l).

Definition value_text (l : string) : string := Str.strip (colon_field l).

(** The first token of the value when tokens are delimited by one space. *)
Definition time_token (l : string) : string :=
  text_before_first " " (Str.strip (colon_field l)).

(** ** The derived column: line 151

    [dataframe.groupby("Instance")["Objective Function Value"].pct_change()].
    Within the rows of one Instance, in the order of the table, a missing
    value is padded with the value above it, and the change of a row is its
    value divided by the value of the row above, minus one; the first row of
    an Instance has no row above. *)

Fixpoint float_of_pos (p : positive) : float :=
  match p with
  | xH => 1
  | xO q => 2 * float_of_pos q
  | xI q => 2 * float_of_pos q + 1
  end%float.

Definition float_of_N (n : N) : float :=
  match n with
  | N0 => 0%float
  | Npos p => float_of_pos p
  end.

(** The cell of a numeric column as a float. *)
Definition as_float (x : number) : float :=
  match x with
  | PyInt Z0 => 0%float
  | PyInt (Zpos p) => float_of_pos p
  | PyInt (Zneg p) => (- float_of_pos p)%float
  | PyFloat f => f
  end.

Fixpoint lookup (name : string) (seen : list (string * float)) : option float :=
  match seen with
  | [] => None
  | (k, v) :: rest => if String.eqb k name then Some v else lookup name rest
  end.

(** [seen] holds, for the rows above, the padded value of each. *)
Fixpoint pct_change_from {T : Type} (seen : list (string * float))
    (table : list (run_record T)) : list float :=
  match table with
  | [] => []
  | r :: rest =>
      let v := as_float (Objective_Function_Value r) in
      let above := lookup (Instance r) seen in
      let filled :=
        if is_nan v then match above with Some p => p | None => v end else v in
      match above with
      | Some p => (filled / p - 1)%float
      | None => nan
      end :: pct_change_from ((Instance r, filled) :: seen) rest
  end.

(** The column ["Relative Change"]. *)
Definition relative_change {T : Type} (table : list (run_record T)) : list float :=
  pct_change_from [] table.

(** ** Instances of the library functions, to evaluate the scanner *)

Fixpoint all_digits (s : string) : bool :=
  match s with
  | String c s' => in_range "0" "9" c && all_digits s'
  | EmptyString => true
  end.

(** [float] on a plain decimal numeral of at most 15 digits, with a sign and a
    point if any: both the digits and the power of ten are floats, so the
    quotient is the nearest float.  Any other text is refused. *)
Definition float_plain (s : string) : option float :=
  let s := Str.strip s in
  let sb :=
    match s with
    | String "-" b => (true, b)
    | String "+" b => (false, b)
    | _ => (false, s)
    end in
  let ip := text_before_first "." (snd sb) in
  let fp := text_after_first "." (snd sb) in
  let ds := (ip ++ fp)%string in
  if all_digits ds && (1 <=? String.length ds)%nat && (String.length ds <=? 15)%nat
  then
    let x := (float_of_N (int_of ds) / float_of_N (10 ^ N.of_nat (String.length fp)))%float in
    Some (if fst sb then (- x)%float else x)
  else None.

Definition is_leap (y : Z) : bool :=
  (((y mod 4 =? 0) && negb (y mod 100 =? 0)) || (y mod 400 =? 0))%Z.

Definition days_in_month (y m : Z) : Z :=
  (if (m =? 2) then (if is_leap y then 29 else 28)
   else if (m =? 4) || (m =? 6) || (m =? 9) || (m =? 11) then 30
   else 31)%Z.

(** Days from 1970-01-01 to a date of the civil calendar. *)
Definition days_from_civil (y m d : Z) : Z :=
  (let y' := if m <=? 2 then y - 1 else y in
   let era := y' / 400 in
   let yoe := y' - era * 400 in
   let mp := if 2 <? m then m - 3 else m + 9 in
   let doy := (153 * mp + 2) / 5 + d - 1 in
   let doe := yoe * 365 + yoe / 4 - yoe / 100 + doy in
   era * 146097 + doe - 719468)%Z.

(** The seconds since 1970-01-01 of a date and time of the civil calendar, in
    the years datetime64[ns] holds whole. *)
Definition datetime64_s (Y m d H M S : N) : option Z :=
  (let y := Z.of_N Y in
   let mo := Z.of_N m in
   let dd := Z.of_N d in
   if (1678 <=? y) && (y <=? 2261) && (1 <=? mo) && (mo <=? 12)
      && (1 <=? dd) && (dd <=? days_in_month y mo)
      && (Z.of_N H <=? 23) && (Z.of_N M <=? 59) && (Z.of_N S <=? 59)
   then Some (((days_from_civil y mo dd * 24 + Z.of_N H) * 60 + Z.of_N M) * 60
              + Z.of_N S)
   else None)%Z.

(** Two sorts by insertion.  Both put the keys in ascending order; the first
    keeps equal keys in the order they came in, the second reverses them. *)
Fixpoint insert_by (before : nat * Z -> nat * Z -> bool) (x : nat * Z)
    (l : list (nat * Z)) : list (nat * Z) :=
  match l with
  | [] => [x]
  | y :: l' => if before x y then x :: l else y :: insert_by before x l'
  end.

Definition sort_by (before : nat * Z -> nat * Z -> bool) (l : list (nat * Z))
  : list (nat * Z) :=
  fold_right (insert_by before) [] l.

Definition argsort_stable (a : list Z) : list nat :=
  map fst (sort_by (fun x y => (snd x <=? snd y)%Z) (enumerate a)).

Definition argsort_reversing (a : list Z) : list nat :=
  map fst (sort_by (fun x y => (snd x <? snd y)%Z) (enumerate a)).


(** ** Facts about [split] *)

Lemma split_not_nil (c : ascii) (s : string) : Str.split c s <> [].
Proof.
  destruct s as [|d s']; simpl; [discriminate|].
  destruct (Ascii.eqb d c); [discriminate|].
  destruct (Str.split c s'); discriminate.
Qed.

Lemma split_head (c : ascii) (s : string) :
  nth_error (Str.split c s) 0 = Some (text_before_first c s).
Proof.
  induction s as [|d s' IH]; simpl; [reflexivity|].
  destruct (Ascii.eqb d c); [reflexivity|].
  destruct (Str.split c s') as [|p ps]; simpl in *; [discriminate|].
  injection IH as ->. reflexivity.
Qed.

Lemma split_second (c : ascii) (s : string) :
  has c s = true ->
  nth_error (Str.split c s) 1 = Some (text_before_first c (text_after_first c s)).
Proof.
  induction s as [|d s' IH]; simpl; [discriminate|].
  destruct (Ascii.eqb d c); simpl.
  - intros _. apply (split_head c s').
  - intros H. specialize (IH H).
    destruct (Str.split c s') as [|p ps]; simpl in *; [discriminate|exact IH].
Qed.

Lemma split_no_sep (c : ascii) (s : string) :
  has c s = false -> Str.split c s = [s].
Proof.
  induction s as [|d s' IH]; simpl; [reflexivity|].
  destruct (Ascii.eqb d c); simpl; [discriminate|].
  intros H. rewrite (IH H). reflexivity.
Qed.

Lemma text_after_last_no_sep (c : ascii) (s : string) :
  has c s = false -> text_after_last c s = s.
Proof.
  destruct s as [|d s']; simpl; [reflexivity|].
  destruct (Ascii.eqb d c); simpl; [discriminate|].
  intros ->. reflexivity.
Qed.

Lemma last_split (c : ascii) (s d0 : string) :
  last (Str.split c s) d0 = text_after_last c s.
Proof.
  revert d0. induction s as [|d s' IH]; intros d0; [reflexivity|].
  cbn [Str.split text_after_last].
  destruct (Ascii.eqb d c).
  - destruct (Str.split c s') as [|p ps] eqn:Es; [exfalso; exact (split_not_nil _ _ Es)|].
    change (last (p :: ps) d0 = (if has c s' then text_after_last c s' else s')).
    rewrite IH. destruct (has c s') eqn:Hc; [reflexivity|].
    apply text_after_last_no_sep, Hc.
  - destruct (has c s') eqn:Hc.
    + specialize (IH d0). pose proof (split_second c s' Hc) as H2.
      destruct (Str.split c s') as [|p [|q qs]]; try discriminate. exact IH.
    + rewrite (split_no_sep c s' Hc). reflexivity.
Qed.

Lemma split_last (c : ascii) (s : string) :
  Str.getlast (Str.split c s) = Ok (text_after_last c s).
Proof.
  unfold Str.getlast. pose proof (last_split c s EmptyString) as H.
  pose proof (split_not_nil c s) as Hn.
  destruct (Str.split c s); [exfalso; apply Hn; reflexivity|].
  rewrite H. reflexivity.
Qed.

Lemma prefix_has (c : ascii) (p s : string) :
  String.prefix p s = true -> has c p = true -> has c s = true.
Proof.
  revert s. induction p as [|a p' IH]; intros s Hp Hc; [discriminate|].
  destruct s as [|b s']; simpl in Hp; [discriminate|].
  destruct (ascii_dec a b) as [->|]; [|discriminate].
  simpl in *. destruct (Ascii.eqb b c); [reflexivity|].
  simpl in *. apply IH; assumption.
Qed.

Lemma contains_has (c : ascii) (p s : string) :
  Str.contains p s = true -> has c p = true -> has c s = true.
Proof.
  intros Hs Hc. induction s as [|b s' IH]; cbn [Str.contains] in Hs.
  - rewrite orb_false_r in Hs. apply (prefix_has c p _ Hs Hc).
  - apply orb_true_iff in Hs as [Hs|Hs].
    + apply (prefix_has c p _ Hs Hc).
    + simpl. rewrite (IH Hs). apply orb_true_r.
Qed.

(** A line that contains a marker ending in a colon has a second piece. *)
Lemma marker_field (m l : string) :
  Str.contains m l = true -> has ":" m = true ->
  Str.getitem (Str.split ":" l) 1
  = Ok (text_before_first ":" (text_after_first ":" l)).
Proof.
  intros Hm Hc. unfold Str.getitem.
  rewrite (split_second ":" l (contains_has ":" m l Hm Hc)). reflexivity.
Qed.

Lemma first_piece (c : ascii) (s : string) :
  Str.getitem (Str.split c s) 0 = Ok (text_before_first c s).
Proof. unfold Str.getitem. rewrite split_head. reflexivity. Qed.

(** ** One step of the scanner, by the shape of the line *)

Section ScannerSteps.

Variable py_float : string -> option float.
Variables stem timestamp : string.

Abbreviation step := (scan_line py_float stem timestamp).
Abbreviation run := (scan_lines py_float stem timestamp).

Lemma scan_instance_line (st : state) (data : list (run_record string)) (l : string) :
  is_instance_line l = true ->
  step st data l
  = Ok (mk_state (Some (instance_of l)) (is_feasible st) (objective_value st)
                 (execution_time st), data).
Proof.
  unfold is_instance_line, scan_line, instance_of. intros ->.
  rewrite split_last. reflexivity.
Qed.

Lemma scan_feasible_line (st : state) (data : list (run_record string)) (l : string) :
  is_feasible_line l = true ->
  step st data l
  = Ok (mk_state (instance_name st) (FStr (flag_of l)) (objective_value st)
                 (execution_time st), data).
Proof.
  unfold is_feasible_line, is_instance_line, scan_line, flag_of, colon_field.
  intros H. apply andb_true_iff in H as [H1 H2]. apply negb_true_iff in H1.
  rewrite H1, H2, (marker_field _ _ H2 eq_refl). reflexivity.
Qed.

Lemma scan_objective_line (st : state) (data : list (run_record string)) (l : string) :
  is_objective_line l = true ->
  step st data l
  = (x <- float_of py_float (value_text l) ;;
     Ok (mk_state (instance_name st) (is_feasible st) (PyFloat x)
                  (execution_time st), data)).
Proof.
  unfold is_objective_line, is_instance_line, scan_line, value_text, colon_field.
  intros H. apply andb_true_iff in H as [H H3]. apply andb_true_iff in H as [H1 H2].
  apply negb_true_iff in H1, H2.
  rewrite H1, H2, H3, (marker_field _ _ H3 eq_refl). reflexivity.
Qed.

Lemma scan_time_line (st : state) (data : list (run_record string)) (l : string) :
  is_time_line l = true ->
  step st data l
  = (t <- float_of py_float (time_token l) ;;
     match instance_name st with
     | Some (String c n) =>
         Ok (defaults,
             data ++ [mk_record (String c n) stem timestamp (is_feasible st)
                                (objective_value st) (PyFloat t)])
     | _ =>
         Ok (mk_state (instance_name st) (is_feasible st) (objective_value st)
                      (PyFloat t), data)
     end).
Proof.
  unfold is_time_line, is_instance_line, scan_line, time_token, colon_field.
  intros H. apply andb_true_iff in H as [H H4]. apply andb_true_iff in H as [H H3].
  apply andb_true_iff in H as [H1 H2]. apply negb_true_iff in H1, H2, H3.
  rewrite H1, H2, H3, H4, (marker_field _ _ H4 eq_refl). cbn [bind].
  rewrite first_piece. reflexivity.
Qed.

Lemma scan_other_line (st : state) (data : list (run_record string)) (l : string) :
  is_instance_line l = false ->
  Str.contains "Is solution feasible:" (Str.strip l) = false ->
  Str.contains "Objective function value:" (Str.strip l) = false ->
  Str.contains "Execution time:" (Str.strip l) = false ->
  step st data l = Ok (st, data).
Proof.
  unfold is_instance_line, scan_line. intros -> -> -> ->. reflexivity.
Qed.

(** The shape of any line is one of five. *)
Lemma line_shape (l : string) :
  is_instance_line l = true \/ is_feasible_line l = true
  \/ is_objective_line l = true \/ is_time_line l = true
  \/ (is_instance_line l = false
      /\ Str.contains "Is solution feasible:" (Str.strip l) = false
      /\ Str.contains "Objective function value:" (Str.strip l) = false
      /\ Str.contains "Execution time:" (Str.strip l) = false).
Proof.
  unfold is_feasible_line, is_objective_line, is_time_line.
  destruct (is_instance_line l); [now left|].
  destruct (Str.contains "Is solution feasible:" (Str.strip l)); [now right; left|].
  destruct (Str.contains "Objective function value:" (Str.strip l));
    [now right; right; left|].
  destruct (Str.contains "Execution time:" (Str.strip l));
    [now right; right; right; left|].
  now right; right; right; right.
Qed.

Lemma scan_lines_app (st : state) (data : list (run_record string))
    (l1 l2 : list string) :
  run st data (l1 ++ l2)
  = (sd <- run st data l1 ;; run (fst sd) (snd sd) l2).
Proof.
  revert st data. induction l1 as [|l l1 IH]; intros st data; [reflexivity|].
  simpl. destruct (step st data l) as [[st' data']|e]; simpl; [apply IH|reflexivity].
Qed.

(** The only exception the line loop raises is the one of [float]. *)
Lemma scan_line_error (st : state) (data : list (run_record string)) (l : string)
    (e : exn) :
  step st data l = Err e -> e = ValueError.
Proof.
  destruct (line_shape l) as [H|[H|[H|[H|(H1 & H2 & H3 & H4)]]]].
  - rewrite (scan_instance_line _ _ _ H). discriminate.
  - rewrite (scan_feasible_line _ _ _ H). discriminate.
  - rewrite (scan_objective_line _ _ _ H). unfold float_of.
    destruct (py_float _); simpl; [discriminate|congruence].
  - rewrite (scan_time_line _ _ _ H). unfold float_of.
    destruct (py_float _); simpl; [|congruence].
    destruct (instance_name st) as [[|c n]|]; discriminate.
  - rewrite (scan_other_line _ _ _ H1 H2 H3 H4). discriminate.
Qed.

Lemma scan_lines_error (st : state) (data : list (run_record string))
    (ls : list string) (e : exn) :
  run st data ls = Err e -> e = ValueError.
Proof.
  revert st data. induction ls as [|l ls IH]; intros st data; simpl; [discriminate|].
  destruct (step st data l) as [[st' data']|e'] eqn:E; simpl.
  - apply IH.
  - intros [= <-]. apply (scan_line_error _ _ _ _ E).
Qed.

End ScannerSteps.

(** ** Cycles of four lines *)

(** The three permutable lines of a cycle. *)
Lemma permutation_of_three {A : Type} (a b c : A) (l : list A) :
  Permutation l [a; b; c] ->
  l = [a; b; c] \/ l = [a; c; b] \/ l = [b; a; c]
  \/ l = [b; c; a] \/ l = [c; a; b] \/ l = [c; b; a].
Proof.
  intros P. pose proof (Permutation_length P) as L.
  destruct l as [|x [|y [|z [|w l]]]]; try discriminate.
  assert (Ha : In a [x; y; z]) by (apply (Permutation_in a (Permutation_sym P)); now left).
  destruct Ha as [->|[->|[->|[]]]].
  - apply Permutation_cons_inv in P. apply Permutation_length_2_inv in P.
    destruct P as [[= -> ->]|[= -> ->]]; tauto.
  - assert (P' : Permutation [x; z] [b; c])
      by (apply Permutation_cons_inv with (a := a);
          eapply perm_trans; [apply perm_swap|exact P]).
    apply Permutation_length_2_inv in P'.
    destruct P' as [[= -> ->]|[= -> ->]]; tauto.
  - assert (P' : Permutation [x; y] [b; c]).
    { apply Permutation_cons_inv with (a := a).
      eapply perm_trans; [|exact P].
      change (Permutation ([a] ++ [x; y]) ([x; y] ++ [a])).
      apply Permutation_app_comm. }
    apply Permutation_length_2_inv in P'.
    destruct P' as [[= -> ->]|[= -> ->]]; tauto.
Qed.

(** [lines] is a cycle: an instance line, a feasibility line and an objective
    line in some order, then an execution-time line; the instance line names
    an instance and both numbers are ones [float] reads. *)
Definition valid_cycle (py_float : string -> option float) (lines : list string)
    (inst feas obj time : string) (x t : float) : Prop :=
  (exists pre, lines = pre ++ [time] /\ Permutation pre [inst; feas; obj])
  /\ is_instance_line inst = true /\ instance_of inst <> ""
  /\ is_feasible_line feas = true
  /\ is_objective_line obj = true /\ py_float (value_text obj) = Some x
  /\ is_time_line time = true /\ py_float (time_token time) = Some t.

(** The record a cycle stands for. *)
Definition cycle_record (stem timestamp inst feas : string) (x t : float)
  : run_record string :=
  mk_record (instance_of inst) stem timestamp (FStr (flag_of feas))
            (PyFloat x) (PyFloat t).

Section Cycles.

Variable py_float : string -> option float.
Variables stem timestamp : string.

Abbreviation run := (scan_lines py_float stem timestamp).

Ltac scan_steps :=
  repeat first
    [ rewrite scan_instance_line by assumption
    | rewrite scan_feasible_line by assumption
    | rewrite scan_objective_line by assumption
    | rewrite scan_time_line by assumption
    | progress cbn [scan_lines bind fst snd instance_name is_feasible
                    objective_value execution_time]
    | progress unfold float_of
    | match goal with H : py_float _ = Some _ |- _ => rewrite H end ].

(** A cycle scanned from the defaults appends its record and is back at the
    defaults. *)
Lemma scan_cycle (lines : list string) (inst feas obj time : string) (x t : float)
    (data : list (run_record string)) :
  valid_cycle py_float lines inst feas obj time x t ->
  run defaults data lines
  = Ok (defaults, data ++ [cycle_record stem timestamp inst feas x t]).
Proof.
  intros ((pre & -> & P) & Hi & Hn & Hf & Ho & Hx & Ht & Htt).
  unfold cycle_record.
  destruct (instance_of inst) as [|c n] eqn:En; [contradiction|].
  apply permutation_of_three in P.
  destruct P as [-> | [-> | [-> | [-> | [-> | ->]]]]]; cbn [app]; scan_steps;
    rewrite ?En; reflexivity.
Qed.

End Cycles.

(** ** The shape of a line, and what a line of each shape does *)

Inductive shape : Type :=
| InstanceLine
| FeasibleLine
| ObjectiveLine
| TimeLine
| OtherLine.

(** The branch of the [if]/[elif] chain a line takes. *)
Definition shape_of (l : string) : shape :=
  if is_instance_line l then InstanceLine
  else if is_feasible_line l then FeasibleLine
  else if is_objective_line l then ObjectiveLine
  else if is_time_line l then TimeLine
  else OtherLine.

Lemma ends_with_has (c : ascii) (s : string) :
  ends_with c s = true -> has c s = true.
Proof.
  induction s as [|d s' IH]; [discriminate|].
  cbn [ends_with has]. destruct s' as [|e s''].
  - intros ->. reflexivity.
  - intros H. rewrite (IH H). apply orb_true_r.
Qed.

Lemma text_after_last_ends_with (c : ascii) (s : string) :
  ends_with c s = true -> text_after_last c s = "".
Proof.
  induction s as [|d s' IH]; [discriminate|].
  cbn [ends_with text_after_last]. destruct s' as [|e s''].
  - intros ->. reflexivity.
  - intros H. rewrite (ends_with_has _ _ H). apply IH, H.
Qed.

(** Where the value holds no further colon, the field is the entire text
    after the colon. *)
Lemma colon_field_whole (l : string) :
  has ":" (text_after_first ":" (Str.strip l)) = false ->
  colon_field l = text_after_first ":" (Str.strip l).
Proof.
  unfold colon_field. generalize (text_after_first ":" (Str.strip l)) as s.
  induction s as [|d s' IH]; [reflexivity|].
  cbn [has text_before_first]. destruct (Ascii.eqb d ":"); [discriminate|].
  cbn [orb]. intros H. rewrite (IH H). reflexivity.
Qed.

Section ScannerClaims.

Variable py_float : string -> option float.

Abbreviation step := (scan_line py_float).
Abbreviation run := (scan_lines py_float).

(** While no instance is named, and the instance lines met name none, the
    line loop appends nothing. *)
Lemma scan_unnamed (stem timestamp : string) (rest : list string) :
  forall (st : state) (data : list (run_record string)),
  truthy (instance_name st) = false ->
  Forall (fun l => is_instance_line l = true -> instance_of l = "") rest ->
  match run stem timestamp st data rest with
  | Ok (st', data') => data' = data /\ truthy (instance_name st') = false
  | Err e => e = ValueError
  end.
Proof.
  induction rest as [|l rest IH]; intros st data Hn Hr; [now split|].
  inversion Hr as [|? ? Hl Hr']; subst. cbn [scan_lines].
  destruct (line_shape l) as [H|[H|[H|[H|(H1 & H2 & H3 & H4)]]]].
  - rewrite (scan_instance_line _ _ _ _ _ _ H). cbn [bind fst snd].
    apply IH; [|exact Hr']. cbn. rewrite (Hl H). reflexivity.
  - rewrite (scan_feasible_line _ _ _ _ _ _ H). cbn [bind fst snd].
    apply IH; [exact Hn|exact Hr'].
  - rewrite (scan_objective_line _ _ _ _ _ _ H). unfold float_of.
    destruct (py_float (value_text l)); cbn [bind fst snd]; [|reflexivity].
    apply IH; [exact Hn|exact Hr'].
  - rewrite (scan_time_line _ _ _ _ _ _ H). unfold float_of.
    destruct (py_float (time_token l)); cbn [bind fst snd]; [|reflexivity].
    destruct (instance_name st) as [[|c n]|] eqn:En; try discriminate;
      cbn [bind fst snd]; (apply IH; [cbn; rewrite ?En; reflexivity|exact Hr']).
  - rewrite (scan_other_line _ _ _ _ _ _ H1 H2 H3 H4). cbn [bind fst snd].
    apply IH; [exact Hn|exact Hr'].
Qed.

(** A line whose number [float] refuses ends the line loop with ValueError,
    wherever it stands. *)
Lemma scan_lines_unparseable (stem timestamp : string) (l : string)
    (lines : list string) :
  In l lines ->
  (is_objective_line l = true /\ py_float (value_text l) = None)
  \/ (is_time_line l = true /\ py_float (time_token l) = None) ->
  forall (st : state) (data : list (run_record string)),
  run stem timestamp st data lines = Err ValueError.
Proof.
  intros Hin Hbad. induction lines as [|l' lines IH]; [destruct Hin|].
  intros st data. cbn [scan_lines].
  destruct (step stem timestamp st data l') as [[st' data']|e] eqn:E.
  - cbn [bind fst snd]. destruct Hin as [->|Hin]; [|apply IH, Hin].
    exfalso. destruct Hbad as [[H Hx]|[H Hx]].
    + rewrite (scan_objective_line _ _ _ _ _ _ H) in E. unfold float_of in E.
      rewrite Hx in E. discriminate.
    + rewrite (scan_time_line _ _ _ _ _ _ H) in E. unfold float_of in E.
      rewrite Hx in E. discriminate.
  - rewrite (scan_line_error _ _ _ _ _ _ _ E). reflexivity.
Qed.

Lemma scan_file_error (data : list (run_record string)) (f : log_file) (e : exn) :
  scan_file py_float data f = Err e -> e = ValueError.
Proof.
  unfold scan_file.
  destruct (run (stem f) (timestamp_of (stem f)) defaults data (content f))
    as [[st' data']|e'] eqn:E; cbn [bind]; [discriminate|].
  intros [= <-]. apply (scan_lines_error _ _ _ _ _ _ _ E).
Qed.

Lemma scan_files_unparseable (f : log_file) (l : string) (files : list log_file) :
  In f files -> In l (content f) ->
  (is_objective_line l = true /\ py_float (value_text l) = None)
  \/ (is_time_line l = true /\ py_float (time_token l) = None) ->
  forall data : list (run_record string),
  scan_files py_float data files = Err ValueError.
Proof.
  intros Hf Hl Hbad. induction files as [|f' files IH]; [destruct Hf|].
  intros data. cbn [scan_files].
  destruct (scan_file py_float data f') as [data'|e] eqn:E.
  - cbn [bind]. destruct Hf as [->|Hf]; [|apply IH, Hf].
    exfalso. unfold scan_file in E.
    rewrite (scan_lines_unparseable _ _ l (content f) Hl Hbad) in E. discriminate.
  - rewrite (scan_file_error _ _ _ E). reflexivity.
Qed.

End ScannerClaims.

(** ** Facts about positions in a table *)

Section Positions.

Context {A : Type}.

Lemma take_app (i1 i2 : list nat) (l : list A) :
  take (i1 ++ i2) l = take i1 l ++ take i2 l.
Proof. apply flat_map_app. Qed.

Lemma take_cons (i : nat) (ix : list nat) (l : list A) :
  take (i :: ix) l
  = match nth_error l i with Some x => [x] | None => [] end ++ take ix l.
Proof. reflexivity. Qed.

Lemma take_seq_from (pre l : list A) :
  take (seq (List.length pre) (List.length l)) (pre ++ l) = l.
Proof.
  revert pre. induction l as [|x l IH]; intros pre; [reflexivity|].
  cbn [List.length seq]. rewrite take_cons.
  rewrite nth_error_app2 by lia. rewrite Nat.sub_diag. cbn [nth_error app].
  f_equal. specialize (IH (pre ++ [x])).
  rewrite length_app, Nat.add_1_r, <- app_assoc in IH. exact IH.
Qed.

Lemma take_seq (l : list A) : take (seq 0 (List.length l)) l = l.
Proof. apply (take_seq_from [] l). Qed.

Lemma take_permutation (ix ix' : list nat) (l : list A) :
  Permutation ix ix' -> Permutation (take ix l) (take ix' l).
Proof. intros P. unfold take. apply Permutation_flat_map, P. Qed.

Lemma nth_error_take (ix : list nat) (l : list A) :
  Forall (fun j => j < List.length l) ix ->
  forall i, nth_error (take ix l) i
            = match nth_error ix i with
              | Some j => nth_error l j
              | None => None
              end.
Proof.
  induction 1 as [|j ix Hj _ IH]; intros i.
  - destruct i; reflexivity.
  - rewrite take_cons. apply nth_error_Some in Hj.
    destruct (nth_error l j) as [x|] eqn:E; [|contradiction Hj; reflexivity].
    destruct i as [|i]; cbn [nth_error app]; [symmetry; exact E|apply IH].
Qed.

Lemma take_take (sigma ix : list nat) (l : list A) :
  Forall (fun j => j < List.length l) ix ->
  take (take sigma ix) l = take sigma (take ix l).
Proof.
  intros V. induction sigma as [|i sigma IH]; [reflexivity|].
  change (take (i :: sigma) ix)
    with (match nth_error ix i with Some j => [j] | None => [] end ++ take sigma ix).
  rewrite take_app, IH, (take_cons i sigma (take ix l)).
  f_equal. rewrite (nth_error_take ix l V i).
  destruct (nth_error ix i) as [j|]; [|reflexivity].
  unfold take. cbn [flat_map]. apply app_nil_r.
Qed.


End Positions.

(** The rows of a table with and without a timestamp. *)
Definition dated {X : Type} (r : run_record (option X)) : bool :=
  match Timestamp r with Some _ => true | None => false end.

Definition undated {X : Type} (r : run_record (option X)) : bool :=
  negb (dated r).

(** The positions counted from [k]. *)
Definition notna_from (k : nat) (keys : list (option Z)) : list (nat * Z) :=
  flat_map (fun p => match snd p with Some z => [(fst p, z)] | None => [] end)
           (combine (seq k (List.length keys)) keys).

Definition isna_from (k : nat) (keys : list (option Z)) : list nat :=
  flat_map (fun p => match snd p with Some _ => [] | None => [fst p] end)
           (combine (seq k (List.length keys)) keys).

Lemma notna_from_cons (k : nat) (key : option Z) (keys : list (option Z)) :
  notna_from k (key :: keys)
  = match key with Some z => [(k, z)] | None => [] end ++ notna_from (S k) keys.
Proof. reflexivity. Qed.

Lemma isna_from_cons (k : nat) (key : option Z) (keys : list (option Z)) :
  isna_from k (key :: keys)
  = match key with Some _ => [] | None => [k] end ++ isna_from (S k) keys.
Proof. reflexivity. Qed.

Lemma take_isna (pre rest : list (run_record (option Z))) :
  take (isna_from (List.length pre) (map Timestamp rest)) (pre ++ rest)
  = filter undated rest.
Proof.
  revert pre. induction rest as [|r rest IH]; intros pre; [reflexivity|].
  cbn [map filter]. rewrite isna_from_cons, take_app.
  specialize (IH (pre ++ [r])).
  rewrite length_app, Nat.add_1_r, <- app_assoc in IH. cbn [app] in IH.
  rewrite IH. unfold undated, dated.
  destruct (Timestamp r); cbn [negb]; [reflexivity|].
  rewrite take_cons, nth_error_app2 by lia. rewrite Nat.sub_diag. reflexivity.
Qed.

Lemma take_notna (pre rest : list (run_record (option Z))) :
  take (map fst (notna_from (List.length pre) (map Timestamp rest))) (pre ++ rest)
  = filter dated rest.
Proof.
  revert pre. induction rest as [|r rest IH]; intros pre; [reflexivity|].
  cbn [map filter]. rewrite notna_from_cons, map_app, take_app.
  specialize (IH (pre ++ [r])).
  rewrite length_app, Nat.add_1_r, <- app_assoc in IH. cbn [app] in IH.
  rewrite IH. unfold dated.
  destruct (Timestamp r); [|reflexivity].
  cbn [map fst]. rewrite take_cons, nth_error_app2 by lia.
  rewrite Nat.sub_diag. reflexivity.
Qed.

Lemma notna_values (k : nat) (rest : list (run_record (option Z))) :
  map Some (map snd (notna_from k (map Timestamp rest)))
  = map Timestamp (filter dated rest).
Proof.
  revert k. induction rest as [|r rest IH]; intros k; [reflexivity|].
  cbn [map filter]. rewrite notna_from_cons, !map_app, IH. unfold dated.
  destruct (Timestamp r) eqn:E; [|reflexivity].
  cbn [map snd app]. rewrite E. reflexivity.
Qed.

Lemma notna_in_range (k : nat) (keys : list (option Z)) :
  Forall (fun j => j < k + List.length keys) (map fst (notna_from k keys)).
Proof.
  revert k. induction keys as [|key keys IH]; intros k; [constructor|].
  rewrite notna_from_cons, map_app. apply Forall_app. split.
  - destruct key; constructor; [cbn; lia|constructor].
  - specialize (IH (S k)). cbn [List.length].
    eapply Forall_impl; [|exact IH]. cbn. intros; lia.
Qed.

Lemma notna_is_from (keys : list (option Z)) : notna keys = notna_from 0 keys.
Proof. reflexivity. Qed.

Lemma isna_is_from (keys : list (option Z)) : isna keys = isna_from 0 keys.
Proof. reflexivity. Qed.

(** ** What [sort_values] relies on, and what it then returns *)

(** An index sort: [argsort a] lists every position of [a] once, and the
    values read in that order ascend.  Nothing is said of equal values. *)
Definition sorts (argsort : list Z -> list nat) : Prop :=
  forall a : list Z,
    Permutation (argsort a) (seq 0 (List.length a))
    /\ Sorted Z.le (take (argsort a) a).


Lemma sort_values_rows (argsort : list Z -> list nat) (df : DataFrame (option Z)) :
  exists ks : list Z,
    map Some ks = map Timestamp (filter dated (rows df))
    /\ rows (sort_values argsort df)
       = take (argsort ks) (filter dated (rows df)) ++ filter undated (rows df).
Proof.
  exists (map snd (notna (map Timestamp (rows df)))). split.
  - rewrite notna_is_from. apply notna_values.
  - unfold sort_values, nargsort. cbn [rows]. rewrite take_app. f_equal.
    + rewrite take_take.
      * f_equal. rewrite notna_is_from. apply (take_notna [] (rows df)).
      * rewrite notna_is_from.
        pose proof (notna_in_range 0 (map Timestamp (rows df))) as V.
        rewrite length_map in V. exact V.
    + rewrite isna_is_from. apply (take_isna [] (rows df)).
Qed.

Lemma Sorted_map_snd (R : nat * Z -> nat * Z -> Prop) (l : list (nat * Z)) :
  (forall x y, R x y -> (snd x <= snd y)%Z) ->
  Sorted R l -> Sorted Z.le (map snd l).
Proof.
  intros HR. induction 1 as [|x l _ IH Hd]; [constructor|].
  cbn [map]. constructor; [exact IH|].
  destruct Hd; constructor. apply HR. assumption.
Qed.

Section Insertion.

Variable before : nat * Z -> nat * Z -> bool.
Hypothesis before_le : forall x y, before x y = true -> (snd x <= snd y)%Z.
Hypothesis before_ge : forall x y, before x y = false -> (snd y <= snd x)%Z.

Definition by_key (x y : nat * Z) : Prop := (snd x <= snd y)%Z.

Lemma insert_by_permutation (x : nat * Z) (l : list (nat * Z)) :
  Permutation (insert_by before x l) (x :: l).
Proof.
  induction l as [|y l IH]; cbn [insert_by]; [reflexivity|].
  destruct (before x y); [reflexivity|].
  rewrite IH. apply perm_swap.
Qed.

Lemma sort_by_permutation (l : list (nat * Z)) :
  Permutation (sort_by before l) l.
Proof.
  induction l as [|x l IH]; cbn [sort_by fold_right]; [reflexivity|].
  rewrite insert_by_permutation. apply perm_skip, IH.
Qed.

Lemma insert_by_sorted (x : nat * Z) (l : list (nat * Z)) :
  Sorted by_key l -> Sorted by_key (insert_by before x l).
Proof.
  induction 1 as [|y l Hs IH Hd]; cbn [insert_by].
  - repeat constructor.
  - destruct (before x y) eqn:E.
    + constructor; [constructor; assumption|].
      constructor. apply before_le, E.
    + constructor; [exact IH|].
      destruct Hd as [|z l' Hyz]; cbn [insert_by].
      * constructor. apply before_ge, E.
      * destruct (before x z); constructor; [apply before_ge, E|exact Hyz].
Qed.

Lemma sort_by_sorted (l : list (nat * Z)) : Sorted by_key (sort_by before l).
Proof.
  induction l as [|x l IH]; cbn [sort_by fold_right]; [constructor|].
  apply insert_by_sorted, IH.
Qed.

End Insertion.

Lemma enumerate_from_fst {A : Type} (k : nat) (l : list A) :
  map fst (combine (seq k (List.length l)) l) = seq k (List.length l).
Proof.
  revert k. induction l as [|x l IH]; intros k; [reflexivity|].
  cbn [List.length seq combine map fst]. f_equal. apply IH.
Qed.

Lemma enumerate_from_nth {A : Type} (pre l : list A) (p : nat * A) :
  In p (combine (seq (List.length pre) (List.length l)) l) ->
  nth_error (pre ++ l) (fst p) = Some (snd p).
Proof.
  revert pre. induction l as [|x l IH]; intros pre; [intros []|].
  cbn [List.length seq combine]. intros [<-|H].
  - cbn [fst snd]. rewrite nth_error_app2 by lia. rewrite Nat.sub_diag. reflexivity.
  - specialize (IH (pre ++ [x])).
    rewrite length_app, Nat.add_1_r, <- app_assoc in IH. apply IH, H.
Qed.

Lemma take_fst (a : list Z) (l : list (nat * Z)) :
  Forall (fun p => nth_error a (fst p) = Some (snd p)) l ->
  take (map fst l) a = map snd l.
Proof.
  induction 1 as [|p l Hp _ IH]; [reflexivity|].
  cbn [map]. rewrite take_cons, Hp, IH. reflexivity.
Qed.

(** Both sorts by insertion are index sorts. *)
Lemma insertion_sorts (before : nat * Z -> nat * Z -> bool) :
  (forall x y, before x y = true -> (snd x <= snd y)%Z) ->
  (forall x y, before x y = false -> (snd y <= snd x)%Z) ->
  sorts (fun a => map fst (sort_by before (enumerate a))).
Proof.
  intros Hle Hge a. split.
  - rewrite (Permutation_map fst (sort_by_permutation before (enumerate a))).
    unfold enumerate. rewrite enumerate_from_fst. reflexivity.
  - rewrite take_fst.
    + apply (Sorted_map_snd by_key); [intros x y H; exact H|].
      apply sort_by_sorted; assumption.
    + apply Forall_forall. intros p Hp.
      apply (Permutation_in p (sort_by_permutation before (enumerate a))) in Hp.
      apply (enumerate_from_nth [] a p Hp).
Qed.

Lemma argsort_stable_sorts : sorts argsort_stable.
Proof.
  apply insertion_sorts; intros x y H.
  - apply Z.leb_le, H.
  - apply Z.leb_gt in H. lia.
Qed.



(** ** Facts about the collected records and the derived column *)

(** The row above [r] within its Instance: the last row of [above] with the
    name [name]. *)
Definition previous_row {T : Type} (name : string) (above : list (run_record T))
  : option (run_record T) :=
  find (fun p => String.eqb (Instance p) name) (rev above).

(** The objective value of a row is a number. *)
Definition not_nan {T : Type} (r : run_record T) : Prop :=
  is_nan (as_float (Objective_Function_Value r)) = false.

Definition seen_of {T : Type} (above : list (run_record T)) : list (string * float) :=
  map (fun r => (Instance r, as_float (Objective_Function_Value r))) (rev above).

Lemma lookup_seen_of {T : Type} (name : string) (l : list (run_record T)) :
  lookup name (map (fun r => (Instance r, as_float (Objective_Function_Value r))) l)
  = option_map (fun p => as_float (Objective_Function_Value p))
               (find (fun p => String.eqb (Instance p) name) l).
Proof.
  induction l as [|r l IH]; [reflexivity|].
  cbn [map lookup find]. destruct (String.eqb (Instance r) name); [reflexivity|exact IH].
Qed.

Lemma pct_change_from_app {T : Type} (above rest : list (run_record T)) :
  Forall not_nan above ->
  forall before : list (run_record T),
  pct_change_from (seen_of before) (above ++ rest)
  = pct_change_from (seen_of before) above
    ++ pct_change_from (seen_of (before ++ above)) rest.
Proof.
  induction 1 as [|r above Hr _ IH]; intros before.
  - rewrite app_nil_r. reflexivity.
  - assert (E : seen_of (before ++ [r])
                = (Instance r, as_float (Objective_Function_Value r)) :: seen_of before)
      by (unfold seen_of; rewrite rev_app_distr; reflexivity).
    cbn [app pct_change_from]. unfold not_nan in Hr. rewrite Hr, <- E.
    rewrite (IH (before ++ [r])), <- app_assoc. reflexivity.
Qed.

Lemma pct_change_from_length {T : Type} (table : list (run_record T)) :
  forall seen, List.length (pct_change_from seen table) = List.length table.
Proof.
  induction table as [|r table IH]; intros seen; [reflexivity|].
  cbn [pct_change_from List.length]. f_equal. apply IH.
Qed.

Section Collected.

Variable py_float : string -> option float.

(** Every record carries the stem of its file and the timestamp read off
    that stem. *)
Definition stamped (r : run_record string) : Prop :=
  Timestamp r = timestamp_of (File r).

Lemma scan_line_stamped (stem : string) (st st' : state)
    (data data' : list (run_record string)) (l : string) :
  scan_line py_float stem (timestamp_of stem) st data l = Ok (st', data') ->
  Forall stamped data -> Forall stamped data'.
Proof.
  destruct (line_shape l) as [H|[H|[H|[H|(H1 & H2 & H3 & H4)]]]].
  - rewrite (scan_instance_line _ _ _ _ _ _ H). intros [= <- <-]. trivial.
  - rewrite (scan_feasible_line _ _ _ _ _ _ H). intros [= <- <-]. trivial.
  - rewrite (scan_objective_line _ _ _ _ _ _ H).
    destruct (float_of py_float (value_text l)); cbn [bind]; [|discriminate].
    intros [= <- <-]. trivial.
  - rewrite (scan_time_line _ _ _ _ _ _ H).
    destruct (float_of py_float (time_token l)); cbn [bind]; [|discriminate].
    destruct (instance_name st) as [[|c n]|]; intros [= <- <-]; trivial.
    intros Hd. apply Forall_app. split; [exact Hd|].
    constructor; [reflexivity|constructor].
  - rewrite (scan_other_line _ _ _ _ _ _ H1 H2 H3 H4). intros [= <- <-]. trivial.
Qed.

Lemma scan_lines_stamped (stem : string) (lines : list string) :
  forall (st st' : state) (data data' : list (run_record string)),
  scan_lines py_float stem (timestamp_of stem) st data lines = Ok (st', data') ->
  Forall stamped data -> Forall stamped data'.
Proof.
  induction lines as [|l lines IH]; intros st st' data data'; cbn [scan_lines].
  - intros [= <- <-]. trivial.
  - destruct (scan_line py_float stem (timestamp_of stem) st data l)
      as [[st1 data1]|e] eqn:E; cbn [bind fst snd]; [|discriminate].
    intros Hr Hd. apply (IH _ _ _ _ Hr). apply (scan_line_stamped _ _ _ _ _ _ E Hd).
Qed.

Lemma scan_files_stamped (files : list log_file) :
  forall data data' : list (run_record string),
  scan_files py_float data files = Ok data' ->
  Forall stamped data -> Forall stamped data'.
Proof.
  induction files as [|f files IH]; intros data data'; cbn [scan_files].
  - intros [= <-]. trivial.
  - unfold scan_file.
    destruct (scan_lines py_float (stem f) (timestamp_of (stem f)) defaults data
                (content f)) as [[st1 data1]|e] eqn:E; cbn [bind fst snd];
      [|discriminate].
    intros Hr Hd. apply (IH _ _ Hr). apply (scan_lines_stamped _ _ _ _ _ _ E Hd).
Qed.

End Collected.

(** * Further properties of the scanner *)

(** A line none of the four tests accepts. *)
Definition ignored (l : string) : bool :=
  match shape_of l with
  | OtherLine => true
  | _ => false
  end.

(** The execution-time lines of a file. *)
Definition time_lines (lines : list string) : list string :=
  filter is_time_line lines.

(** On a result, what [data ++ _] is on the collected records. *)
Definition extend (data : list (run_record string))
    (r : result (state * list (run_record string)))
  : result (state * list (run_record string)) :=
  sd <- r ;; Ok (fst sd, data ++ snd sd).

(** What every collected record satisfies. *)
Definition well_formed (r : run_record string) : Prop :=
  Instance r <> ""
  /\ has "/" (Instance r) = false
  /\ (exists t : float, Execution_Time r = PyFloat t)
  /\ Timestamp r = timestamp_of (File r).

Lemma text_after_last_no_sep_left (c : ascii) (s : string) :
  has c (text_after_last c s) = false.
Proof.
  induction s as [|d s' IH]; [reflexivity|].
  cbn [text_after_last]. destruct (has c s') eqn:Hc; [exact IH|].
  destruct (Ascii.eqb d c) eqn:E; [exact Hc|].
  cbn [has]. rewrite E, Hc. reflexivity.
Qed.

Lemma ignored_line (py_float : string -> option float) (stem timestamp : string)
    (st : state) (data : list (run_record string)) (l : string) :
  ignored l = true ->
  scan_line py_float stem timestamp st data l = Ok (st, data).
Proof.
  unfold ignored, shape_of.
  destruct (is_instance_line l) eqn:H1; [discriminate|].
  destruct (is_feasible_line l) eqn:H2; [discriminate|].
  destruct (is_objective_line l) eqn:H3; [discriminate|].
  destruct (is_time_line l) eqn:H4; [discriminate|]. intros _.
  unfold is_feasible_line, is_objective_line, is_time_line in *.
  rewrite H1 in *. cbn [negb andb] in *.
  rewrite H2 in *. cbn [negb andb] in *.
  rewrite H3 in *. cbn [negb andb] in *.
  apply scan_other_line; assumption.
Qed.

Lemma not_ignored_shape (l : string) :
  ignored l = false ->
  is_instance_line l = true \/ is_feasible_line l = true
  \/ is_objective_line l = true \/ is_time_line l = true.
Proof.
  unfold ignored, shape_of.
  destruct (is_instance_line l); [now left|].
  destruct (is_feasible_line l); [now right; left|].
  destruct (is_objective_line l); [now right; right; left|].
  destruct (is_time_line l); [now right; right; right|discriminate].
Qed.

Section ScannerMore.

Variable py_float : string -> option float.

Lemma scan_line_extend (stem timestamp : string) (st : state)
    (data d0 : list (run_record string)) (l : string) :
  scan_line py_float stem timestamp st (data ++ d0) l
  = extend data (scan_line py_float stem timestamp st d0 l).
Proof.
  unfold extend.
  destruct (line_shape l) as [H|[H|[H|[H|(H1 & H2 & H3 & H4)]]]].
  - rewrite !(scan_instance_line _ _ _ _ _ _ H). reflexivity.
  - rewrite !(scan_feasible_line _ _ _ _ _ _ H). reflexivity.
  - rewrite !(scan_objective_line _ _ _ _ _ _ H).
    destruct (float_of py_float (value_text l)); reflexivity.
  - rewrite !(scan_time_line _ _ _ _ _ _ H).
    destruct (float_of py_float (time_token l)); [|reflexivity].
    cbn [bind]. destruct (instance_name st) as [[|c n]|]; cbn [bind fst snd];
      rewrite <- ?app_assoc; reflexivity.
  - rewrite !(scan_other_line _ _ _ _ _ _ H1 H2 H3 H4). reflexivity.
Qed.

Lemma scan_lines_extend (stem timestamp : string) (lines : list string) :
  forall (st : state) (data d0 : list (run_record string)),
  scan_lines py_float stem timestamp st (data ++ d0) lines
  = extend data (scan_lines py_float stem timestamp st d0 lines).
Proof.
  induction lines as [|l lines IH]; intros st data d0; [reflexivity|].
  cbn [scan_lines]. rewrite scan_line_extend. unfold extend at 1.
  destruct (scan_line py_float stem timestamp st d0 l) as [[st1 d1]|e];
    cbn [bind fst snd]; [apply IH|reflexivity].
Qed.

Lemma scan_file_extend (data : list (run_record string)) (f : log_file) :
  scan_file py_float data f
  = (new <- scan_file py_float [] f ;; Ok (data ++ new)).
Proof.
  unfold scan_file.
  rewrite <- (app_nil_r data) at 1. rewrite scan_lines_extend. unfold extend.
  destruct (scan_lines py_float (stem f) (timestamp_of (stem f)) defaults []
              (content f)) as [[st1 d1]|e]; reflexivity.
Qed.

Lemma scan_files_extend (files : list log_file) :
  forall data d0 : list (run_record string),
  scan_files py_float (data ++ d0) files
  = (new <- scan_files py_float d0 files ;; Ok (data ++ new)).
Proof.
  induction files as [|f files IH]; intros data d0; [reflexivity|].
  cbn [scan_files]. rewrite (scan_file_extend (data ++ d0)), (scan_file_extend d0).
  destruct (scan_file py_float [] f) as [new|e]; cbn [bind]; [|reflexivity].
  rewrite <- app_assoc. apply IH.
Qed.

Lemma scan_files_app (data : list (run_record string)) (fs1 fs2 : list log_file) :
  scan_files py_float data (fs1 ++ fs2)
  = (d1 <- scan_files py_float data fs1 ;; scan_files py_float d1 fs2).
Proof.
  revert data. induction fs1 as [|f fs1 IH]; intros data; [reflexivity|].
  cbn [app scan_files]. destruct (scan_file py_float data f); cbn [bind];
    [apply IH|reflexivity].
Qed.

(** Lines without effect may be left out of a scan. *)
Lemma scan_lines_without_ignored (stem timestamp : string) (lines : list string) :
  forall (st : state) (data : list (run_record string)),
  scan_lines py_float stem timestamp st data lines
  = scan_lines py_float stem timestamp st data
      (filter (fun l => negb (ignored l)) lines).
Proof.
  induction lines as [|l lines IH]; intros st data; [reflexivity|].
  cbn [filter]. destruct (ignored l) eqn:E; cbn [negb scan_lines].
  - rewrite (ignored_line py_float _ _ _ _ _ E). cbn [bind fst snd]. apply IH.
  - destruct (scan_line py_float stem timestamp st data l) as [[st1 d1]|e];
      cbn [bind fst snd]; [apply IH|reflexivity].
Qed.

(** X1. The records of a file do not depend on the files before it: the
    working variables start from the defaults at every file, so the records
    collected from two lists of files, one after the other, are the records of
    the first list followed by the records the second list gives on its own. *)
Theorem files_are_scanned_independently (fs1 fs2 : list log_file) :
  scan_files py_float [] (fs1 ++ fs2)
  = (d1 <- scan_files py_float [] fs1 ;;
     d2 <- scan_files py_float [] fs2 ;;
     Ok (d1 ++ d2)).
Proof.
  rewrite scan_files_app.
  destruct (scan_files py_float [] fs1) as [d1|e]; cbn [bind]; [|reflexivity].
  rewrite <- (app_nil_r d1) at 1. apply scan_files_extend.
Qed.

(** X2. Lines that none of the four tests accepts are without effect:
    deleting them from a file changes neither the records nor the exception
    nor the working variables the line loop ends with. *)
Theorem ignored_lines_are_skipped (stem timestamp : string) (lines : list string)
    (st : state) (data : list (run_record string)) :
  scan_lines py_float stem timestamp st data lines
  = scan_lines py_float stem timestamp st data
      (filter (fun l => negb (ignored l)) lines).
Proof.
  revert st data. induction lines as [|l lines IH]; intros st data; [reflexivity|].
  cbn [filter]. destruct (ignored l) eqn:E; cbn [negb scan_lines].
  - rewrite (ignored_line py_float _ _ _ _ _ E). cbn [bind fst snd]. apply IH.
  - destruct (scan_line py_float stem timestamp st data l) as [[st1 d1]|e];
      cbn [bind fst snd]; [apply IH|reflexivity].
Qed.

Lemma scan_line_count (stem timestamp : string) (st st' : state)
    (data data' : list (run_record string)) (l : string) :
  scan_line py_float stem timestamp st data l = Ok (st', data') ->
  List.length data' <= List.length data + (if is_time_line l then 1 else 0).
Proof.
  destruct (line_shape l) as [H|[H|[H|[H|(H1 & H2 & H3 & H4)]]]].
  - rewrite (scan_instance_line _ _ _ _ _ _ H). intros [= <- <-]. lia.
  - rewrite (scan_feasible_line _ _ _ _ _ _ H). intros [= <- <-]. lia.
  - rewrite (scan_objective_line _ _ _ _ _ _ H).
    destruct (float_of py_float (value_text l)); cbn [bind]; [|discriminate].
    intros [= <- <-]. lia.
  - rewrite (scan_time_line _ _ _ _ _ _ H), H.
    destruct (float_of py_float (time_token l)); cbn [bind]; [|discriminate].
    destruct (instance_name st) as [[|c n]|]; intros [= <- <-];
      rewrite ?length_app; cbn [List.length]; lia.
  - rewrite (scan_other_line _ _ _ _ _ _ H1 H2 H3 H4). intros [= <- <-]. lia.
Qed.

Lemma scan_lines_count (stem timestamp : string) (lines : list string) :
  forall (st st' : state) (data data' : list (run_record string)),
  scan_lines py_float stem timestamp st data lines = Ok (st', data') ->
  List.length data' <= List.length data + List.length (time_lines lines).
Proof.
  induction lines as [|l lines IH]; intros st st' data data'; cbn [scan_lines].
  - intros [= <- <-]. cbn. lia.
  - destruct (scan_line py_float stem timestamp st data l) as [[st1 d1]|e] eqn:E;
      cbn [bind fst snd]; [|discriminate].
    intros Hr. apply IH in Hr. apply scan_line_count in E.
    unfold time_lines in *. cbn [filter].
    destruct (is_time_line l); cbn [List.length]; lia.
Qed.

(** X3. A file list yields at most one record per execution-time line: the
    number of collected records is at most the number of lines, over all
    files, that reach the execution-time branch. *)
Theorem records_bounded_by_time_lines (files : list log_file)
    (data : list (run_record string)) :
  scan_files py_float [] files = Ok data ->
  List.length data <= List.length (time_lines (flat_map content files)).
Proof.
  assert (G : forall d0 d1, scan_files py_float d0 files = Ok d1 ->
              List.length d1
              <= List.length d0 + List.length (time_lines (flat_map content files))).
  { induction files as [|f files IH]; intros d0 d1; cbn [scan_files].
    - intros [= <-]. cbn. lia.
    - unfold scan_file.
      destruct (scan_lines py_float (stem f) (timestamp_of (stem f)) defaults d0
                  (content f)) as [[st1 d2]|e] eqn:E; cbn [bind fst snd];
        [|discriminate].
      intros Hr. apply IH in Hr. apply scan_lines_count in E.
      cbn [flat_map]. unfold time_lines in *. rewrite filter_app, length_app. lia. }
  intros H. apply (G [] data H).
Qed.

(** The instance named by the working variables holds no slash. *)
Definition named_without_slash (st : state) : Prop :=
  forall n : string, instance_name st = Some n -> has "/" n = false.

Lemma scan_line_well_formed (stem : string) (st st' : state)
    (data data' : list (run_record string)) (l : string) :
  scan_line py_float stem (timestamp_of stem) st data l = Ok (st', data') ->
  named_without_slash st -> Forall well_formed data ->
  named_without_slash st' /\ Forall well_formed data'.
Proof.
  unfold named_without_slash.
  destruct (line_shape l) as [H|[H|[H|[H|(H1 & H2 & H3 & H4)]]]].
  - rewrite (scan_instance_line _ _ _ _ _ _ H). intros [= <- <-] _ Hd.
    split; [|exact Hd]. cbn. intros n [= <-]. apply text_after_last_no_sep_left.
  - rewrite (scan_feasible_line _ _ _ _ _ _ H). intros [= <- <-] Hs Hd. now split.
  - rewrite (scan_objective_line _ _ _ _ _ _ H).
    destruct (float_of py_float (value_text l)); cbn [bind]; [|discriminate].
    intros [= <- <-] Hs Hd. now split.
  - rewrite (scan_time_line _ _ _ _ _ _ H).
    destruct (float_of py_float (time_token l)) as [t|]; cbn [bind]; [|discriminate].
    destruct (instance_name st) as [[|c n]|] eqn:En; intros [= <- <-] Hs Hd;
      try (now split).
    split; [intros n0; discriminate|].
    apply Forall_app. split; [exact Hd|]. constructor; [|constructor].
    repeat split; cbn; [discriminate|apply (Hs _ eq_refl)|now exists t].
  - rewrite (scan_other_line _ _ _ _ _ _ H1 H2 H3 H4). intros [= <- <-] Hs Hd.
    now split.
Qed.

Lemma scan_lines_well_formed (stem : string) (lines : list string) :
  forall (st st' : state) (data data' : list (run_record string)),
  scan_lines py_float stem (timestamp_of stem) st data lines = Ok (st', data') ->
  named_without_slash st -> Forall well_formed data ->
  Forall well_formed data'.
Proof.
  induction lines as [|l lines IH]; intros st st' data data'; cbn [scan_lines].
  - intros [= <- <-] _ Hd. exact Hd.
  - destruct (scan_line py_float stem (timestamp_of stem) st data l)
      as [[st1 d1]|e] eqn:E; cbn [bind fst snd]; [|discriminate].
    intros Hr Hs Hd. destruct (scan_line_well_formed _ _ _ _ _ _ E Hs Hd) as [Hs1 Hd1].
    apply (IH _ _ _ _ Hr Hs1 Hd1).
Qed.

(** X4. Every collected record names a non-empty instance without a slash,
    holds a float as its Execution Time (never the initial 0), and carries the
    stem of its file together with the timestamp read off that stem. *)
Theorem collected_records_are_well_formed (files : list log_file)
    (data : list (run_record string)) :
  scan_files py_float [] files = Ok data -> Forall well_formed data.
Proof.
  assert (G : forall d0 d1, scan_files py_float d0 files = Ok d1 ->
              Forall well_formed d0 -> Forall well_formed d1).
  { induction files as [|f files IH]; intros d0 d1; cbn [scan_files].
    - intros [= <-]. trivial.
    - unfold scan_file.
      destruct (scan_lines py_float (stem f) (timestamp_of (stem f)) defaults d0
                  (content f)) as [[st1 d2]|e] eqn:E; cbn [bind fst snd];
        [|discriminate].
      intros Hr Hd. apply (IH _ _ Hr).
      apply (scan_lines_well_formed _ _ _ _ _ _ E); [|exact Hd].
      intros n; discriminate. }
  intros H. apply (G [] data H). constructor.
Qed.

End ScannerMore.

(** ** The rows of the table returned *)

Lemma dated_undated_permutation (l : list (run_record (option Z))) :
  Permutation (filter dated l ++ filter undated l) l.
Proof.
  induction l as [|r l IH]; [constructor|].
  cbn [filter]. unfold undated at 1. destruct (dated r); cbn [negb app].
  - apply perm_skip, IH.
  - apply Permutation_sym, Permutation_cons_app, Permutation_sym, IH.
Qed.

Lemma sort_values_permutation (argsort : list Z -> list nat)
    (df : DataFrame (option Z)) :
  sorts argsort -> Permutation (rows (sort_values argsort df)) (rows df).
Proof.
  intros Hs. destruct (sort_values_rows argsort df) as (ks & Hk & ->).
  destruct (Hs ks) as [Hp _].
  assert (Hl : List.length ks = List.length (filter dated (rows df))).
  { rewrite <- (length_map Some ks), Hk. apply length_map. }
  rewrite (take_permutation _ _ (filter dated (rows df)) Hp), Hl, take_seq.
  apply dated_undated_permutation.
Qed.

(** Two rows hold the same cells; the objective value is compared as the
    float it is in a column of floats. *)
Definition same_cells (a b : run_record (option Z)) : Prop :=
  Instance a = Instance b /\ File a = File b /\ Timestamp a = Timestamp b
  /\ Is_Solution_Feasible a = Is_Solution_Feasible b
  /\ as_float (Objective_Function_Value a) = as_float (Objective_Function_Value b)
  /\ Execution_Time a = Execution_Time b.

(** The rows of [df] are the records [recs], each once, in some order. *)
Definition holds_records (df : DataFrame (option Z))
    (recs : list (run_record (option Z))) : Prop :=
  exists table : list (run_record (option Z)),
    Permutation table recs /\ Forall2 same_cells (rows df) table.

Lemma same_cells_refl (l : list (run_record (option Z))) : Forall2 same_cells l l.
Proof. induction l; constructor; [repeat split|assumption]. Qed.

(** With a record collected, the assembler returns a table of the six columns
    that holds the collected records, each once, with the timestamp parsed. *)
Lemma process_files_collected (py_float : string -> option float)
    (datetime64 : N -> N -> N -> N -> N -> N -> option Z)
    (argsort : list Z -> list nat) (files : list log_file)
    (data : list (run_record string)) :
  sorts argsort ->
  scan_files py_float [] files = Ok data -> data <> [] ->
  exists df : DataFrame (option Z),
    process_files py_float datetime64 argsort files = Ok df
    /\ columns df = record_keys
    /\ Permutation (rows df) (map (parse_cell datetime64) data).
Proof.
  intros Hs Hscan Hne. unfold process_files. rewrite Hscan. cbn [bind].
  destruct data as [|r data]; [contradiction Hne; reflexivity|].
  assert (Ep : parse_timestamps datetime64 (frame_of_records (r :: data))
               = Ok (mk_frame record_keys (seq 0 (List.length (r :: data)))
                              (map (parse_cell datetime64) (r :: data))))
    by reflexivity.
  rewrite Ep. cbn [bind]. eexists. split; [reflexivity|]. split; [reflexivity|].
  exact (sort_values_permutation argsort
           (mk_frame record_keys (seq 0 (List.length (r :: data)))
                     (map (parse_cell datetime64) (r :: data))) Hs).
Qed.

(** The records of a file among the files before and after it. *)
Lemma scan_files_around (py_float : string -> option float)
    (before after : list log_file) (f : log_file)
    (d1 new d2 : list (run_record string)) :
  scan_files py_float [] before = Ok d1 ->
  scan_file py_float [] f = Ok new ->
  scan_files py_float [] after = Ok d2 ->
  scan_files py_float [] (before ++ f :: after) = Ok (d1 ++ new ++ d2).
Proof.
  intros H1 Hf H2. rewrite scan_files_app, H1. cbn [bind scan_files].
  rewrite scan_file_extend, Hf. cbn [bind].
  rewrite <- (app_nil_r (d1 ++ new)) at 1. rewrite scan_files_extend, H2.
  cbn [bind]. rewrite <- app_assoc. reflexivity.
Qed.

(** ** Sample logs *)

Definition nl : string := String "010" EmptyString.
Definition tab : string := String "009" EmptyString.

(** One cycle, the objective line first. *)
Definition sample_cycle : list string :=
  [("Objective function value: 100" ++ nl)%string;
   ("./instances/a01" ++ nl)%string;
   ("Is solution feasible: true" ++ nl)%string;
   ("Execution time: 0.5 s" ++ nl)%string].

Definition second_cycle : list string :=
  [("./instances/b02" ++ nl)%string;
   ("Is solution feasible: false" ++ nl)%string;
   ("Objective function value: 150" ++ nl)%string;
   ("Execution time: 2 s" ++ nl)%string].

Definition sample_log : log_file := mk_log "run_2024-03-05_10-20-30" sample_cycle.

Definition two_cycle_log : log_file :=
  mk_log "run_2024-03-05_10-20-30" (sample_cycle ++ second_cycle).

Definition undated_log : log_file := mk_log "notes" sample_cycle.

Definition broken_log : log_file :=
  mk_log "run_2024-03-05_10-20-30"
         ["./instances/a01"; "Objective function value: n/a"; "Execution time: 1 s"].



(** The same cycle among lines the scanner passes over. *)
Definition noisy_log : log_file :=
  mk_log "run_2024-03-05_10-20-30"
         [("Solver 1.2 on 8 threads" ++ nl)%string;
          ("Objective function value: 100" ++ nl)%string;
          nl;
          ("./instances/a01" ++ nl)%string;
          ("Is solution feasible: true" ++ nl)%string;
          ("iterations 12" ++ nl)%string;
          ("Execution time: 0.5 s" ++ nl)%string].

Definition noisy_two_cycle_log : log_file :=
  mk_log "run_2024-03-05_10-20-30"
         (content noisy_log ++ [("restart" ++ nl)%string] ++ second_cycle).

Definition first_record : run_record string :=
  mk_record "a01" "run_2024-03-05_10-20-30" "2024-03-05_10-20-30"
            (FStr "true") (PyFloat 100) (PyFloat 0.5).

Definition second_record : run_record string :=
  mk_record "b02" "run_2024-03-05_10-20-30" "2024-03-05_10-20-30"
            (FStr "false") (PyFloat 150) (PyFloat 2).

Definition undated_record : run_record string :=
  mk_record "a01" "notes" "Unknown" (FStr "true") (PyFloat 100) (PyFloat 0.5).

(** * Properties of the script *)

Section Claims.

Variable py_float : string -> option float.
Variable datetime64 : N -> N -> N -> N -> N -> N -> option Z.
Variable argsort : list Z -> list nat.


(** C2. A file whose lines, apart from lines the scanner passes over, are two
    consecutive valid cycles gives two records; after the first emission the
    four working variables are back at None, False, 0, 0, so the second cycle
    is scanned from the defaults and its record holds the values of its own
    lines only; after the second emission the variables are at the defaults
    again.  Among files that scan without error, the table [process_files]
    returns holds the records of the other files and these two. *)
Theorem two_cycles_two_records (before after : list log_file) (f : log_file)
    (c1 c2 : list string)
    (inst1 feas1 obj1 time1 inst2 feas2 obj2 time2 : string)
    (x1 t1 x2 t2 : float) (data d1 d2 : list (run_record string)) :
  sorts argsort ->
  filter (fun l => negb (ignored l)) (content f) = c1 ++ c2 ->
  valid_cycle py_float c1 inst1 feas1 obj1 time1 x1 t1 ->
  valid_cycle py_float c2 inst2 feas2 obj2 time2 x2 t2 ->
  scan_files py_float [] before = Ok d1 ->
  scan_files py_float [] after = Ok d2 ->
  let ts := timestamp_of (stem f) in
  let r1 := cycle_record (stem f) ts inst1 feas1 x1 t1 in
  let r2 := cycle_record (stem f) ts inst2 feas2 x2 t2 in
  scan_lines py_float (stem f) ts defaults data c1 = Ok (defaults, data ++ [r1])
  /\ scan_lines py_float (stem f) ts defaults (data ++ [r1]) c2
     = Ok (defaults, data ++ [r1; r2])
  /\ scan_file py_float data f = Ok (data ++ [r1; r2])
  /\ scan_files py_float [] (before ++ f :: after) = Ok (d1 ++ r1 :: r2 :: d2)
  /\ exists df : DataFrame (option Z),
       process_files py_float datetime64 argsort (before ++ f :: after) = Ok df
       /\ columns df = record_keys
       /\ holds_records df (map (parse_cell datetime64) (d1 ++ r1 :: r2 :: d2)).
Proof.
  intros Hs E Hc1 Hc2 H1 H2 ts r1 r2.
  assert (S1 : forall d, scan_lines py_float (stem f) ts defaults d c1
                         = Ok (defaults, d ++ [r1]))
    by (intros d; apply (scan_cycle py_float (stem f) ts _ _ _ _ _ _ _ d Hc1)).
  assert (S2 : forall d, scan_lines py_float (stem f) ts defaults (d ++ [r1]) c2
                         = Ok (defaults, d ++ [r1; r2])).
  { intros d.
    rewrite (scan_cycle py_float (stem f) ts _ _ _ _ _ _ _ (d ++ [r1]) Hc2).
    fold r2. rewrite <- app_assoc. reflexivity. }
  assert (Sf : forall d, scan_file py_float d f = Ok (d ++ [r1; r2])).
  { intros d. unfold scan_file. rewrite scan_lines_without_ignored, E.
    rewrite scan_lines_app. fold ts. rewrite S1. cbn [bind fst snd].
    rewrite S2. reflexivity. }
  pose proof (scan_files_around py_float before after f d1 [r1; r2] d2 H1 (Sf []) H2)
    as Hall.
  cbn [app] in Hall.
  split; [apply S1|]. split; [apply S2|]. split; [apply Sf|]. split; [exact Hall|].
  destruct (process_files_collected py_float datetime64 argsort _ _ Hs Hall)
    as (df & Hdf & Hcol & Hperm).
  { intros En. apply app_eq_nil in En as [_ En]. discriminate En. }
  exists df. split; [exact Hdf|]. split; [exact Hcol|].
  exists (rows df). split; [exact Hperm|apply same_cells_refl].
Qed.

(** C3, as amended. An execution-time line met while no instance is named
    (the name is None or empty), and whose first token [float] reads, emits
    no record: the collected data are the same after it, only the working
    execution time is set, and no exception is raised. *)
Theorem time_line_without_instance (stem timestamp : string) (pre : list string)
    (l : string) (t : float) (st : state) (data0 data : list (run_record string)) :
  scan_lines py_float stem timestamp defaults data0 pre = Ok (st, data) ->
  truthy (instance_name st) = false ->
  is_time_line l = true ->
  py_float (time_token l) = Some t ->
  scan_lines py_float stem timestamp defaults data0 (pre ++ [l])
  = Ok (mk_state (instance_name st) (is_feasible st) (objective_value st)
                 (PyFloat t), data).
Proof.
  intros Hpre Hn Hl Ht. rewrite scan_lines_app, Hpre. cbn [bind fst snd scan_lines].
  rewrite (scan_time_line _ _ _ _ _ _ Hl). unfold float_of. rewrite Ht.
  cbn [bind fst snd]. destruct (instance_name st) as [[|c n]|]; try reflexivity.
  discriminate Hn.
Qed.

(** C7. If some line of some file is an objective line or an execution-time
    line whose extracted text [float] refuses, [process_files] raises
    ValueError: no table is returned, and [main] ends with the same exception
    without writing anything. *)
Theorem unparseable_number_is_fatal (files : list log_file) (f : log_file)
    (l : string) :
  In f files -> In l (content f) ->
  (is_objective_line l = true /\ py_float (value_text l) = None)
  \/ (is_time_line l = true /\ py_float (time_token l) = None) ->
  process_files py_float datetime64 argsort files = Err ValueError
  /\ main py_float datetime64 argsort files = Err ValueError.
Proof.
  intros Hf Hl Hbad. unfold main, process_files.
  rewrite (scan_files_unparseable py_float f l files Hf Hl Hbad []).
  split; reflexivity.
Qed.

(** C8, as amended. What a line does is fixed by the first test of the chain
    it passes.  A feasibility line (not starting with "./") sets the flag to
    the trimmed text between the first colon and the next one, or the end; an
    objective line (neither of the former) reads a float from that trimmed
    text; an execution-time line (none of the former) reads a float from the
    part of that trimmed text before its first space, then emits if an
    instance is named. *)
Theorem scan_line_by_shape (stem timestamp : string) (st : state)
    (data : list (run_record string)) (l : string) :
  scan_line py_float stem timestamp st data l
  = match shape_of l with
    | InstanceLine =>
        Ok (mk_state (Some (instance_of l)) (is_feasible st) (objective_value st)
                     (execution_time st), data)
    | FeasibleLine =>
        Ok (mk_state (instance_name st) (FStr (flag_of l)) (objective_value st)
                     (execution_time st), data)
    | ObjectiveLine =>
        x <- float_of py_float (value_text l) ;;
        Ok (mk_state (instance_name st) (is_feasible st) (PyFloat x)
                     (execution_time st), data)
    | TimeLine =>
        t <- float_of py_float (time_token l) ;;
        if truthy (instance_name st)
        then Ok (defaults,
                 data ++ [mk_record (match instance_name st with
                                     | Some n => n
                                     | None => ""
                                     end)
                                    stem timestamp (is_feasible st)
                                    (objective_value st) (PyFloat t)])
        else Ok (mk_state (instance_name st) (is_feasible st) (objective_value st)
                          (PyFloat t), data)
    | OtherLine => Ok (st, data)
    end.
Proof.
  unfold shape_of.
  destruct (is_instance_line l) eqn:H1; [apply scan_instance_line, H1|].
  destruct (is_feasible_line l) eqn:H2; [apply scan_feasible_line, H2|].
  destruct (is_objective_line l) eqn:H3; [apply scan_objective_line, H3|].
  destruct (is_time_line l) eqn:H4.
  - rewrite (scan_time_line _ _ _ _ _ _ H4).
    destruct (float_of py_float (time_token l)); [|reflexivity].
    cbn [bind]. destruct (instance_name st) as [[|c n]|]; reflexivity.
  - unfold is_feasible_line, is_objective_line, is_time_line in *.
    rewrite H1 in *. cbn [negb andb] in *.
    rewrite H2 in *. cbn [negb andb] in *.
    rewrite H3 in *. cbn [negb andb] in *.
    apply scan_other_line; assumption.
Qed.

(** C10. A line that, trimmed, starts with "./" and ends with "/" names the
    empty instance.  From then on, as long as every instance line met names
    the empty instance too, the line loop either raises ValueError at an
    unreadable number or ends with the collected data as they were, still
    without an instance: no execution-time line emits a record. *)
Theorem trailing_slash_names_no_instance (stem timestamp : string) (st : state)
    (data : list (run_record string)) (l : string) (rest : list string) :
  Str.startswith "./" (Str.strip l) = true ->
  ends_with "/" (Str.strip l) = true ->
  Forall (fun l' => is_instance_line l' = true -> instance_of l' = "") rest ->
  let named := mk_state (Some "") (is_feasible st) (objective_value st)
                        (execution_time st) in
  instance_of l = ""
  /\ scan_line py_float stem timestamp st data l = Ok (named, data)
  /\ truthy (instance_name named) = false
  /\ match scan_lines py_float stem timestamp named data rest with
     | Ok (st', data') => data' = data /\ truthy (instance_name st') = false
     | Err e => e = ValueError
     end.
Proof.
  intros Hs He Hr named.
  assert (En : instance_of l = "") by (apply text_after_last_ends_with, He).
  split; [exact En|]. split.
  - rewrite (scan_instance_line py_float stem timestamp st data l Hs), En. reflexivity.
  - split; [reflexivity|].
    apply (scan_unnamed py_float stem timestamp rest named data eq_refl Hr).
Qed.

(** C5, on the code. With no [*.txt] file there is no record, the table has
    no column, and reading its Timestamp column raises KeyError: neither
    [process_files] nor [main] returns, and no file is written. *)
Theorem no_files_raise_KeyError :
  process_files py_float datetime64 argsort [] = Err (KeyError "Timestamp")
  /\ main py_float datetime64 argsort [] = Err (KeyError "Timestamp").
Proof. split; reflexivity. Qed.

(** C9. A record of a file whose stem holds no match of the pattern carries
    the timestamp "Unknown"; [to_datetime] turns that text into a missing
    value; and with such a record among the collected ones the assembler
    returns a table, in which the record stands with a missing timestamp. *)
Theorem unknown_timestamp_is_missing (files : list log_file)
    (data : list (run_record string)) (f : log_file) (r : run_record string) :
  sorts argsort ->
  scan_files py_float [] files = Ok data ->
  re_search timestamp_pattern (stem f) = None ->
  In r data -> File r = stem f ->
  Timestamp r = "Unknown"
  /\ to_datetime datetime64 "Unknown" = None
  /\ exists df : DataFrame (option Z),
       process_files py_float datetime64 argsort files = Ok df
       /\ In (parse_cell datetime64 r) (rows df)
       /\ Timestamp (parse_cell datetime64 r) = None.
Proof.
  intros Hsort Hscan Hre Hin Hfile.
  pose proof (scan_files_stamped py_float files [] data Hscan (Forall_nil _)) as Hst.
  rewrite Forall_forall in Hst. specialize (Hst r Hin). unfold stamped in Hst.
  assert (Eu : Timestamp r = "Unknown")
    by (rewrite Hst, Hfile; unfold timestamp_of; rewrite Hre; reflexivity).
  split; [exact Eu|]. split; [reflexivity|].
  unfold process_files. rewrite Hscan. cbn [bind].
  destruct data as [|r0 data']; [destruct Hin|].
  assert (Ep : parse_timestamps datetime64 (frame_of_records (r0 :: data'))
               = Ok (mk_frame record_keys (seq 0 (List.length (r0 :: data')))
                              (map (parse_cell datetime64) (r0 :: data'))))
    by reflexivity.
  rewrite Ep. cbn [bind]. eexists. split; [reflexivity|].
  assert (Em : Timestamp (parse_cell datetime64 r) = None)
    by (cbn [parse_cell Timestamp]; rewrite Eu; reflexivity).
  split; [|exact Em].
  match goal with |- context [sort_values argsort ?d] =>
    destruct (sort_values_rows argsort d) as (ks & _ & ->) end.
  cbn [rows]. apply in_or_app. right. apply filter_In. split.
  - apply in_map, Hin.
  - unfold undated, dated. rewrite Em. reflexivity.
Qed.


(** C6, as amended. In a table whose objective values are numbers, the
    Relative Change of a row is null when no row above has its Instance;
    otherwise it is the objective value of the row divided by that of the
    nearest row above with the same Instance, minus one, in binary64. *)
Theorem relative_change_of_row {T : Type} (above below : list (run_record T))
    (r : run_record T) :
  Forall not_nan above -> not_nan r ->
  nth_error (relative_change (above ++ r :: below)) (List.length above)
  = Some match previous_row (Instance r) above with
         | None => nan
         | Some p =>
             (as_float (Objective_Function_Value r)
              / as_float (Objective_Function_Value p) - 1)%float
         end.
Proof.
  intros Ha Hr. unfold relative_change.
  change (@nil (string * float)) with (@seen_of T []).
  rewrite (pct_change_from_app above (r :: below) Ha []).
  rewrite nth_error_app2 by (rewrite pct_change_from_length; lia).
  rewrite pct_change_from_length, Nat.sub_diag.
  cbn [app pct_change_from nth_error]. unfold not_nan in Hr. rewrite Hr.
  unfold seen_of. rewrite lookup_seen_of. fold (previous_row (Instance r) above).
  destruct (previous_row (Instance r) above); reflexivity.
Qed.

End Claims.

(** ** The properties on sample logs *)

(** The table of the two-cycle log and the log without a date. *)
Definition sample_table : DataFrame (option Z) :=
  Eval vm_compute in
    match process_files float_plain datetime64_s argsort_stable
                        [undated_log; two_cycle_log] with
    | Ok df => df
    | Err _ => mk_frame [] [] []
    end.



(** Two runs of one instance, with objective values 0.1 and 0.3. *)
Definition tenth : float := 0x1.999999999999ap-4%float.
Definition three_tenths : float := 0x1.3333333333333p-2%float.

Definition two_runs : list (run_record (option Z)) :=
  [mk_record "instA" "instA_2024-01-01_00-00-00" (Some 1704067200%Z)
             (FBool false) (PyFloat tenth) (PyFloat 1);
   mk_record "instB" "instB_2024-01-15_00-00-00" (Some 1705276800%Z)
             (FBool false) (PyFloat 100) (PyFloat 1);
   mk_record "instA" "instA_2024-02-01_00-00-00" (Some 1706745600%Z)
             (FBool false) (PyFloat three_tenths) (PyFloat 1)].

Ltac cycle_facts :=
  repeat split; try (vm_compute; reflexivity); vm_compute; discriminate.


Lemma two_cycles_two_records_witness :
  sorts argsort_stable
  /\ filter (fun l => negb (ignored l)) (content noisy_two_cycle_log)
     = sample_cycle ++ second_cycle
  /\ scan_files float_plain [] [undated_log] = Ok [undated_record]
  /\ scan_files float_plain [] [] = Ok []
  /\ scan_lines float_plain "run_2024-03-05_10-20-30" "2024-03-05_10-20-30"
       defaults [] sample_cycle
     = Ok (defaults, [first_record])
  /\ scan_lines float_plain "run_2024-03-05_10-20-30" "2024-03-05_10-20-30"
       defaults [first_record] second_cycle
     = Ok (defaults, [first_record; second_record])
  /\ scan_file float_plain [] noisy_two_cycle_log = Ok [first_record; second_record]
  /\ scan_files float_plain [] ([undated_log] ++ noisy_two_cycle_log :: [])
     = Ok [undated_record; first_record; second_record]
  /\ exists df : DataFrame (option Z),
       process_files float_plain datetime64_s argsort_stable
         ([undated_log] ++ noisy_two_cycle_log :: []) = Ok df
       /\ columns df = record_keys
       /\ holds_records df
            (map (parse_cell datetime64_s)
                 [undated_record; first_record; second_record]).
Proof.
  assert (E : filter (fun l => negb (ignored l)) (content noisy_two_cycle_log)
              = sample_cycle ++ second_cycle) by (vm_compute; reflexivity).
  assert (Hc1 : valid_cycle float_plain sample_cycle
                  ("./instances/a01" ++ nl)%string
                  ("Is solution feasible: true" ++ nl)%string
                  ("Objective function value: 100" ++ nl)%string
                  ("Execution time: 0.5 s" ++ nl)%string 100%float 0.5%float).
  { split; [|cycle_facts].
    exists (firstn 3 sample_cycle). split; [reflexivity|].
    apply (Permutation_cons_append [_; _]). }
  assert (Hc2 : valid_cycle float_plain second_cycle
                  ("./instances/b02" ++ nl)%string
                  ("Is solution feasible: false" ++ nl)%string
                  ("Objective function value: 150" ++ nl)%string
                  ("Execution time: 2 s" ++ nl)%string 150%float 2%float).
  { split; [|cycle_facts].
    exists (firstn 3 second_cycle). split; [reflexivity|].
    apply Permutation_refl. }
  assert (H1 : scan_files float_plain [] [undated_log] = Ok [undated_record])
    by (vm_compute; reflexivity).
  assert (H2 : scan_files float_plain [] [] = Ok []) by reflexivity.
  split; [exact argsort_stable_sorts|]. split; [exact E|].
  split; [exact H1|]. split; [exact H2|].
  exact (two_cycles_two_records float_plain datetime64_s argsort_stable
           [undated_log] [] noisy_two_cycle_log sample_cycle second_cycle
           _ _ _ _ _ _ _ _ _ _ _ _ [] _ _
           argsort_stable_sorts E Hc1 Hc2 H1 H2).
Defined.

(** C3 as first stated fails: with no instance named, an execution-time line
    whose number [float] refuses raises ValueError, here and in
    [process_files]. *)
Lemma time_line_unreadable_raises :
  is_time_line "Execution time: n/a" = true
  /\ instance_name defaults = None
  /\ float_plain (time_token "Execution time: n/a") = None
  /\ scan_line float_plain "run" "Unknown" defaults [] "Execution time: n/a"
     = Err ValueError
  /\ process_files float_plain datetime64_s argsort_stable
       [mk_log "run" ["Execution time: n/a"]]
     = Err ValueError.
Proof. repeat split; vm_compute; reflexivity. Qed.

Lemma time_line_without_instance_witness :
  scan_lines float_plain "run" "Unknown" defaults [] ["Is solution feasible: true"]
  = Ok (mk_state None (FStr "true") (PyInt 0) (PyInt 0), [])
  /\ is_time_line "Execution time: 3 s" = true
  /\ float_plain (time_token "Execution time: 3 s") = Some 3%float
  /\ scan_lines float_plain "run" "Unknown" defaults []
       ["Is solution feasible: true"; "Execution time: 3 s"]
     = Ok (mk_state None (FStr "true") (PyInt 0) (PyFloat 3), []).
Proof.
  assert (H1 : scan_lines float_plain "run" "Unknown" defaults []
                 ["Is solution feasible: true"]
               = Ok (mk_state None (FStr "true") (PyInt 0) (PyInt 0), []))
    by (vm_compute; reflexivity).
  assert (H2 : is_time_line "Execution time: 3 s" = true) by (vm_compute; reflexivity).
  assert (H3 : float_plain (time_token "Execution time: 3 s") = Some 3%float)
    by (vm_compute; reflexivity).
  split; [exact H1|]. split; [exact H2|]. split; [exact H3|].
  exact (time_line_without_instance float_plain "run" "Unknown"
           ["Is solution feasible: true"] "Execution time: 3 s" 3%float
           _ [] [] H1 eq_refl H2 H3).
Defined.

Lemma unparseable_number_is_fatal_witness :
  In broken_log [sample_log; broken_log]
  /\ In "Objective function value: n/a" (content broken_log)
  /\ is_objective_line "Objective function value: n/a" = true
  /\ float_plain (value_text "Objective function value: n/a") = None
  /\ process_files float_plain datetime64_s argsort_stable [sample_log; broken_log]
     = Err ValueError
  /\ main float_plain datetime64_s argsort_stable [sample_log; broken_log]
     = Err ValueError.
Proof.
  assert (Hf : In broken_log [sample_log; broken_log]) by (right; left; reflexivity).
  assert (Hl : In "Objective function value: n/a" (content broken_log))
    by (right; left; reflexivity).
  assert (H1 : is_objective_line "Objective function value: n/a" = true)
    by (vm_compute; reflexivity).
  assert (H2 : float_plain (value_text "Objective function value: n/a") = None)
    by (vm_compute; reflexivity).
  split; [exact Hf|]. split; [exact Hl|]. split; [exact H1|]. split; [exact H2|].
  exact (unparseable_number_is_fatal float_plain datetime64_s argsort_stable
           [sample_log; broken_log] broken_log "Objective function value: n/a"
           Hf Hl (or_introl (conj H1 H2))).
Defined.

(** C8 as first stated fails on each of three lines: the flag stops at the
    second colon; a tab does not end the token, so [float] is handed
    [0.5<tab>seconds] and raises; a line starting with "./" names an instance
    whatever marker it holds. *)
Lemma value_text_counterexample :
  (Str.contains "Is solution feasible:" "Is solution feasible: yes: checked" = true
   /\ Str.strip (text_after_first ":" "Is solution feasible: yes: checked")
      = "yes: checked"
   /\ scan_line float_plain "run" "Unknown" defaults []
        "Is solution feasible: yes: checked"
      = Ok (mk_state None (FStr "yes") (PyInt 0) (PyInt 0), []))
  /\ (Str.contains "Execution time:" ("Execution time: 0.5" ++ tab ++ "seconds") = true
      /\ float_plain
           (first_token
              (Str.strip (text_after_first ":"
                            ("Execution time: 0.5" ++ tab ++ "seconds"))))
         = Some 0.5%float
      /\ scan_line float_plain "run" "Unknown" defaults []
           ("Execution time: 0.5" ++ tab ++ "seconds")
         = Err ValueError)
  /\ (Str.contains "Objective function value:" "./Objective function value: 7" = true
      /\ float_plain (Str.strip (text_after_first ":" "./Objective function value: 7"))
         = Some 7%float
      /\ scan_line float_plain "run" "Unknown" defaults []
           "./Objective function value: 7"
         = Ok (mk_state (Some "Objective function value: 7") (FBool false)
                        (PyInt 0) (PyInt 0), [])).
Proof. repeat split; vm_compute; reflexivity. Qed.

Lemma trailing_slash_names_no_instance_witness :
  Str.startswith "./" (Str.strip ("./instances/" ++ nl)) = true
  /\ ends_with "/" (Str.strip ("./instances/" ++ nl)) = true
  /\ Forall (fun l' => is_instance_line l' = true -> instance_of l' = "")
            ["Execution time: 2 s"]
  /\ instance_of ("./instances/" ++ nl) = ""
  /\ scan_line float_plain "run" "Unknown" defaults [] ("./instances/" ++ nl)
     = Ok (mk_state (Some "") (FBool false) (PyInt 0) (PyInt 0), [])
  /\ match scan_lines float_plain "run" "Unknown"
             (mk_state (Some "") (FBool false) (PyInt 0) (PyInt 0)) []
             ["Execution time: 2 s"] with
     | Ok (st', data') => data' = [] /\ truthy (instance_name st') = false
     | Err e => e = ValueError
     end.
Proof.
  assert (H1 : Str.startswith "./" (Str.strip ("./instances/" ++ nl)) = true)
    by (vm_compute; reflexivity).
  assert (H2 : ends_with "/" (Str.strip ("./instances/" ++ nl)) = true)
    by (vm_compute; reflexivity).
  assert (H3 : Forall (fun l' => is_instance_line l' = true -> instance_of l' = "")
                      ["Execution time: 2 s"]).
  { constructor; [|constructor]. intros H. vm_compute in H. discriminate H. }
  destruct (trailing_slash_names_no_instance float_plain "run" "Unknown" defaults []
              ("./instances/" ++ nl)%string ["Execution time: 2 s"] H1 H2 H3)
    as (E1 & E2 & _ & E3).
  split; [exact H1|]. split; [exact H2|]. split; [exact H3|].
  split; [exact E1|]. split; [exact E2|exact E3].
Defined.

Lemma unknown_timestamp_is_missing_witness :
  sorts argsort_stable
  /\ scan_files float_plain [] [undated_log]
     = Ok [mk_record "a01" "notes" "Unknown" (FStr "true") (PyFloat 100) (PyFloat 0.5)]
  /\ re_search timestamp_pattern (stem undated_log) = None
  /\ to_datetime datetime64_s "Unknown" = None
  /\ exists df : DataFrame (option Z),
       process_files float_plain datetime64_s argsort_stable [undated_log] = Ok df
       /\ In (mk_record "a01" "notes" None (FStr "true") (PyFloat 100) (PyFloat 0.5))
             (rows df).
Proof.
  assert (H1 : scan_files float_plain [] [undated_log]
               = Ok [mk_record "a01" "notes" "Unknown" (FStr "true") (PyFloat 100)
                               (PyFloat 0.5)])
    by (vm_compute; reflexivity).
  assert (H2 : re_search timestamp_pattern (stem undated_log) = None)
    by (vm_compute; reflexivity).
  destruct (unknown_timestamp_is_missing float_plain datetime64_s argsort_stable
              [undated_log] _ undated_log _ argsort_stable_sorts H1 H2
              (or_introl eq_refl) eq_refl)
    as (_ & E & df & Hdf & Hin & _).
  split; [exact argsort_stable_sorts|]. split; [exact H1|]. split; [exact H2|].
  split; [exact E|]. exists df. split; [exact Hdf|exact Hin].
Defined.



(** C6 as first stated fails in binary64: for the objective values 0.1 and
    0.3 the column holds 0.3 / 0.1 - 1, one unit in the last place below
    (0.3 - 0.1) / 0.1. *)
Lemma relative_change_rounding :
  float_plain "0.1" = Some tenth
  /\ float_plain "0.3" = Some three_tenths
  /\ relative_change two_runs = [nan; nan; 0x1.ffffffffffffep+0%float]
  /\ ((three_tenths - tenth) / tenth)%float = 0x1.fffffffffffffp+0%float
  /\ nth_error (relative_change two_runs) 2
     <> Some ((three_tenths - tenth) / tenth)%float.
Proof.
  split; [vm_compute; reflexivity|].
  split; [vm_compute; reflexivity|].
  split; [vm_compute; reflexivity|].
  split; [vm_compute; reflexivity|].
  intros H.
  pose (same := fun o : option float =>
                  match o with
                  | Some y => (y =? 0x1.ffffffffffffep+0)%float
                  | None => false
                  end).
  assert (E : same (nth_error (relative_change two_runs) 2)
              = same (Some ((three_tenths - tenth) / tenth)%float))
    by (rewrite H; reflexivity).
  vm_compute in E. discriminate E.
Qed.

Lemma relative_change_of_row_witness :
  Forall not_nan (firstn 2 two_runs)
  /\ nth_error (relative_change two_runs) 2
     = Some (three_tenths / tenth - 1)%float
  /\ nth_error (relative_change two_runs) 1 = Some nan.
Proof.
  assert (Ha : Forall not_nan (firstn 2 two_runs))
    by (repeat constructor; vm_compute; reflexivity).
  split; [exact Ha|]. split.
  - exact (relative_change_of_row (firstn 2 two_runs) []
             (mk_record "instA" "instA_2024-02-01_00-00-00" (Some 1706745600%Z)
                        (FBool false) (PyFloat three_tenths) (PyFloat 1))
             Ha ltac:(vm_compute; reflexivity)).
  - vm_compute. reflexivity.
Defined.

(** * The timestamp read off a stem *)

(** [t] occurs in [s]. *)
Definition occurs_in (t s : string) : Prop :=
  exists pre post : string, s = (pre ++ t ++ post)%string.

Lemma match_timestamp (s : string) (e : nat) (g : list string) :
  re_match timestamp_pattern s = Some (e, g) ->
  exists t post : string,
    s = (t ++ post)%string /\ g = [t] /\ String.length t = 19
    /\ re_match timestamp_pattern t = Some (19, [t]).
Proof.
  unfold re_match, timestamp_pattern, seq_re, d4, d2, digit.
  cbn [fold_right rmatch].
  do 19 (destruct s as [|? s]; [discriminate|];
         match goal with
         | |- (if ?b then _ else _) = _ -> _ => destruct b eqn:?; [|discriminate]
         end).
  intros H. cbn [app] in H.
  repeat match goal with
         | E : Ascii.eqb _ _ = true |- _ => apply Ascii.eqb_eq in E; subst
         end.
  match type of H with
  | Some (?n, [String.substring 0 ?m ?u]) = _ =>
      replace n with 19 in H by (cbn [String.length]; lia);
      replace m with 19 in H by (cbn [String.length]; lia)
  end.
  cbn [String.substring] in H.
  replace (String.substring 0 0 s) with EmptyString in H by (destruct s; reflexivity).
  match type of H with Some (_, [?T]) = _ => exists T, s end.
  injection H as <- <-.
  split; [reflexivity|]. split; [reflexivity|]. split; [reflexivity|].
  cbn [rmatch String.length Nat.sub app String.substring].
  repeat match goal with E : in_range _ _ _ = true |- _ => rewrite E; clear E end.
  reflexivity.
Qed.

Lemma search_occurs (r : regex) (s : string) (g : list string) :
  re_search r s = Some g ->
  exists (pre s' : string) (e : nat),
    s = (pre ++ s')%string /\ re_match r s' = Some (e, g).
Proof.
  induction s as [|c s IH]; cbn [re_search].
  - destruct (re_match r "") as [[e g']|] eqn:E; [|discriminate].
    intros [= <-]. exists "", "", e. split; [reflexivity|exact E].
  - destruct (re_match r (String c s)) as [[e g']|] eqn:E.
    + intros [= <-]. exists "", (String c s), e. split; [reflexivity|exact E].
    + intros H. destruct (IH H) as (pre & s' & e & -> & Hm).
      exists (String c pre), s', e. split; [reflexivity|exact Hm].
Qed.

(** X5. The timestamp filed with a record is either the placeholder
    "Unknown", when the stem holds no match, or a text of 19 characters that
    occurs in the stem and is itself, from end to end, a match of the
    pattern. *)
Theorem timestamp_of_shape (stem : string) :
  (re_search timestamp_pattern stem = None /\ timestamp_of stem = "Unknown")
  \/ (occurs_in (timestamp_of stem) stem
      /\ String.length (timestamp_of stem) = 19
      /\ re_match timestamp_pattern (timestamp_of stem)
         = Some (19, [timestamp_of stem])).
Proof.
  unfold timestamp_of.
  destruct (re_search timestamp_pattern stem) as [g|] eqn:E; [right|left; now split].
  destruct (search_occurs _ _ _ E) as (pre & s' & e & -> & Hm).
  destruct (match_timestamp _ _ _ Hm) as (t & post & -> & -> & Hl & Ht).
  cbn [nth]. split; [|split; assumption].
  exists pre, post. reflexivity.
Qed.

(** * Further properties of the assembler *)

Lemma scan_files_error (py_float : string -> option float)
    (files : list log_file) :
  forall (data : list (run_record string)) (e : exn),
  scan_files py_float data files = Err e -> e = ValueError.
Proof.
  induction files as [|f files IH]; intros data e; cbn [scan_files]; [discriminate|].
  destruct (scan_file py_float data f) as [d1|e'] eqn:E; cbn [bind].
  - apply IH.
  - intros [= <-]. apply (scan_file_error _ _ _ _ E).
Qed.

Lemma scan_files_count (py_float : string -> option float) (files : list log_file) :
  forall d0 d1 : list (run_record string),
  scan_files py_float d0 files = Ok d1 ->
  List.length d1
  <= List.length d0 + List.length (time_lines (flat_map content files)).
Proof.
  induction files as [|f files IH]; intros d0 d1; cbn [scan_files].
  - intros [= <-]. cbn. lia.
  - unfold scan_file.
    destruct (scan_lines py_float (stem f) (timestamp_of (stem f)) defaults d0
                (content f)) as [[st1 d2]|e] eqn:E; cbn [bind fst snd];
      [|discriminate].
    intros Hr. apply IH in Hr. apply scan_lines_count in E.
    cbn [flat_map]. unfold time_lines in *. rewrite filter_app, length_app. lia.
Qed.

Lemma filter_none {A : Type} (p : A -> bool) (l : list A) :
  (forall x, In x l -> p x = false) -> filter p l = [].
Proof.
  induction l as [|x l IH]; intros H; [reflexivity|].
  cbn [filter]. rewrite (H x (or_introl eq_refl)).
  apply IH. intros y Hy. apply H. now right.
Qed.

Lemma positions_partition (keys : list (option Z)) :
  forall k : nat,
  Permutation (map fst (notna_from k keys) ++ isna_from k keys)
              (seq k (List.length keys)).
Proof.
  induction keys as [|key keys IH]; intros k; [constructor|].
  rewrite notna_from_cons, isna_from_cons, map_app. cbn [List.length seq].
  destruct key as [z|]; cbn [map fst app].
  - apply perm_skip, IH.
  - apply Permutation_sym, Permutation_cons_app, Permutation_sym, IH.
Qed.

Lemma take_positions (n : nat) (ix : list nat) :
  Forall (fun j => j < n) ix -> take ix (seq 0 n) = ix.
Proof.
  induction 1 as [|j ix Hj _ IH]; [reflexivity|].
  rewrite take_cons, IH.
  assert (E : nth_error (seq 0 n) j = Some j).
  { rewrite (nth_error_nth' (seq 0 n) 0) by (rewrite length_seq; exact Hj).
    rewrite seq_nth by exact Hj. reflexivity. }
  rewrite E. reflexivity.
Qed.

Section AssemblerMore.

Variable py_float : string -> option float.
Variable datetime64 : N -> N -> N -> N -> N -> N -> option Z.
Variable argsort : list Z -> list nat.

Lemma nargsort_permutation (keys : list (option Z)) :
  sorts argsort ->
  Permutation (nargsort argsort keys) (seq 0 (List.length keys)).
Proof.
  intros Hs. unfold nargsort.
  destruct (Hs (map snd (notna keys))) as [Hp _].
  rewrite (take_permutation _ _ (map fst (notna keys)) Hp).
  rewrite length_map, <- (length_map fst), take_seq.
  rewrite notna_is_from, isna_is_from. apply positions_partition.
Qed.

(** X6. [process_files] raises nothing but ValueError, from an unreadable
    number in some line, and KeyError on the Timestamp column, when the
    files scanned without error yield no record at all. *)
Theorem process_files_raises (files : list log_file) (e : exn) :
  process_files py_float datetime64 argsort files = Err e ->
  (e = ValueError /\ scan_files py_float [] files = Err ValueError)
  \/ (e = KeyError "Timestamp" /\ scan_files py_float [] files = Ok []).
Proof.
  unfold process_files.
  destruct (scan_files py_float [] files) as [data|e'] eqn:E; cbn [bind].
  - destruct data as [|r data]; [intros [= <-]; right; now split|discriminate].
  - intros [= <-]. rewrite (scan_files_error _ _ _ _ E). left. now split.
Qed.

(** X7. Logs without any execution-time line never give a table: whatever
    else the files hold, [process_files] raises ValueError or KeyError. *)
Theorem no_time_line_no_table (files : list log_file) :
  (forall (f : log_file) (l : string),
      In f files -> In l (content f) -> is_time_line l = false) ->
  exists e : exn,
    process_files py_float datetime64 argsort files = Err e
    /\ (e = ValueError \/ e = KeyError "Timestamp").
Proof.
  intros H. unfold process_files.
  destruct (scan_files py_float [] files) as [data|e] eqn:E; cbn [bind].
  - assert (T : time_lines (flat_map content files) = []).
    { apply filter_none. intros l Hl. apply in_flat_map in Hl as (f & Hf & Hl).
      apply (H f l Hf Hl). }
    apply scan_files_count in E. rewrite T in E.
    destruct data as [|r data]; [|cbn in E; lia].
    exists (KeyError "Timestamp"). split; [reflexivity|now right].
  - exists e. split; [reflexivity|]. left. apply (scan_files_error _ _ _ _ E).
Qed.

(** X8. A table [process_files] returns has the six columns of a record, as
    many rows as records were collected, and an index that lists every
    position of the collected records once: each row holds the cells of the
    collected record its index label points to, with the timestamp parsed and
    the objective value as a float. *)
Theorem table_rows_follow_index (files : list log_file) (df : DataFrame (option Z)) :
  sorts argsort ->
  process_files py_float datetime64 argsort files = Ok df ->
  exists data : list (run_record string),
    scan_files py_float [] files = Ok data
    /\ columns df = record_keys
    /\ Permutation (index df) (seq 0 (List.length data))
    /\ Forall2 same_cells (rows df)
                (take (index df) (map (parse_cell datetime64) data))
    /\ List.length (rows df) = List.length data.
Proof.
  intros Hs. unfold process_files.
  destruct (scan_files py_float [] files) as [data|e]; cbn [bind]; [|discriminate].
  destruct data as [|r data]; [discriminate|].
  assert (Ep : parse_timestamps datetime64 (frame_of_records (r :: data))
               = Ok (mk_frame record_keys (seq 0 (List.length (r :: data)))
                              (map (parse_cell datetime64) (r :: data))))
    by reflexivity.
  rewrite Ep. clear Ep. generalize (r :: data). intros rs.
  cbn [bind]. intros [= <-]. exists rs. split; [reflexivity|].
  split; [reflexivity|].
  unfold sort_values. cbn [index rows columns].
  set (keys := map Timestamp (map (parse_cell datetime64) rs)).
  pose proof (nargsort_permutation keys Hs) as Hp.
  assert (Hl : List.length keys = List.length rs)
    by (unfold keys; rewrite !length_map; reflexivity).
  rewrite Hl in Hp.
  assert (Hi : take (nargsort argsort keys) (seq 0 (List.length rs))
               = nargsort argsort keys).
  { apply take_positions, Forall_forall. intros j Hj.
    apply (Permutation_in j Hp), in_seq in Hj. lia. }
  rewrite Hi. split; [exact Hp|]. split; [apply same_cells_refl|].
  rewrite (Permutation_length
             (take_permutation _ _ (map (parse_cell datetime64) rs) Hp)).
  rewrite <- (length_map (parse_cell datetime64) rs) at 1.
  rewrite take_seq, length_map. reflexivity.
Qed.

End AssemblerMore.

(** * Further properties of the derived column and of the annotations *)

(** The rows of one Instance, and the cells of a column beside them. *)
Definition of_instance {T : Type} (name : string) (r : run_record T) : bool :=
  String.eqb (Instance r) name.

Definition cells_of_instance {T : Type} (name : string)
    (table : list (run_record T)) (column : list float) : list float :=
  map snd (filter (fun p => of_instance name (fst p)) (combine table column)).

Lemma lookup_other (name k : string) (v : float) (seen : list (string * float)) :
  String.eqb k name = false -> lookup name ((k, v) :: seen) = lookup name seen.
Proof. intros E. cbn [lookup]. rewrite E. reflexivity. Qed.

Lemma pct_change_from_group {T : Type} (name : string) (table : list (run_record T)) :
  forall seen seen' : list (string * float),
  lookup name seen = lookup name seen' ->
  cells_of_instance name table (pct_change_from seen table)
  = pct_change_from seen' (filter (of_instance name) table).
Proof.
  unfold cells_of_instance.
  induction table as [|r table IH]; intros seen seen' E; [reflexivity|].
  cbn [pct_change_from combine filter fst].
  destruct (of_instance name r) eqn:En; unfold of_instance in En.
  - apply String.eqb_eq in En. cbn [map snd pct_change_from].
    rewrite En, E. f_equal. apply IH. cbn [lookup]. rewrite String.eqb_refl.
    reflexivity.
  - apply IH. rewrite lookup_other by exact En. exact E.
Qed.

(** X9. The Relative Change of the rows of one Instance is the column
    computed on those rows alone: rows of other instances standing in
    between, whatever their values, change nothing. *)
Theorem relative_change_by_instance {T : Type} (name : string)
    (table : list (run_record T)) :
  cells_of_instance name table (relative_change table)
  = relative_change (filter (of_instance name) table).
Proof. unfold relative_change. apply pct_change_from_group. reflexivity. Qed.

(** ** The annotations of the evolution plot: lines 118-131 *)

Inductive arrow : Type := Up | Down.
Inductive color : Type := Blue | Red.

(** One call of [ax.text]: the point, the magnitude the label prints with one
    decimal, the arrow after it and the colour. *)
Record annotation (T : Type) : Type := mk_annotation {
  text_x : T;
  text_y : float;
  magnitude : float;
  label_arrow : arrow;
  arrow_color : color
}.

Arguments mk_annotation {T}.
Arguments text_x {T}.
Arguments text_y {T}.
Arguments magnitude {T}.
Arguments label_arrow {T}.
Arguments arrow_color {T}.

(** The body of the loop for a row met with [previous_value] set to [p]. *)
Definition annotate_row {T : Type} (p : float) (row : run_record T)
  : list (annotation T) :=
  let v := as_float (Objective_Function_Value row) in
  if negb (p =? 0)%float then
    let percent_change := ((v - p) / p * 100)%float in
    [mk_annotation (Timestamp row) v (abs percent_change)
       (if (0 <=? percent_change)%float then Up else Down)
       (if (0 <=? percent_change)%float then Blue else Red)]
  else [].

(** The loop [for idx, row in group_sorted.iterrows()]. *)
Fixpoint annotate_from {T : Type} (previous_value : option float)
    (group_sorted : list (run_record T)) : list (annotation T) :=
  match group_sorted with
  | [] => []
  | row :: rest =>
      match previous_value with
      | Some p => annotate_row p row
      | None => []
      end ++ annotate_from (Some (as_float (Objective_Function_Value row))) rest
  end.

Definition annotate_group {T : Type} (group_sorted : list (run_record T))
  : list (annotation T) :=
  annotate_from None group_sorted.

(** The rows of a group each beside the row above it. *)
Definition adjacent {T : Type} (group : list (run_record T))
  : list (run_record T * run_record T) :=
  combine group (tl group).

Lemma annotate_from_adjacent {T : Type} (row : run_record T)
    (rest : list (run_record T)) :
  annotate_from (Some (as_float (Objective_Function_Value row))) rest
  = flat_map (fun pr => annotate_row (as_float (Objective_Function_Value (fst pr)))
                                     (snd pr))
             (adjacent (row :: rest)).
Proof.
  revert row. induction rest as [|r rest IH]; intros row; [reflexivity|].
  cbn [annotate_from]. rewrite IH. reflexivity.
Qed.

(** X10. The annotations of a group are those of its pairs of adjacent rows,
    in order: a row is annotated from the row just above it alone, the first
    row of a group is never annotated, and a row whose predecessor has the
    objective value zero is passed over, so the loop never divides by zero. *)
Theorem annotations_of_adjacent_rows {T : Type} (group : list (run_record T)) :
  annotate_group group
  = flat_map (fun pr => annotate_row (as_float (Objective_Function_Value (fst pr)))
                                     (snd pr))
             (adjacent group).
Proof.
  destruct group as [|row rest]; [reflexivity|].
  unfold annotate_group. cbn [annotate_from app]. apply annotate_from_adjacent.
Qed.

Lemma annotate_row_length {T : Type} (p : float) (row : run_record T) :
  List.length (annotate_row p row) = if (p =? 0)%float then 0 else 1.
Proof. unfold annotate_row. destruct (p =? 0)%float; reflexivity. Qed.

Lemma annotate_from_length {T : Type} (group : list (run_record T)) :
  forall previous_value : option float,
  List.length (annotate_from previous_value group)
  <= List.length group - (match previous_value with Some _ => 0 | None => 1 end).
Proof.
  induction group as [|row rest IH]; intros pv; [cbn; lia|].
  cbn [annotate_from]. rewrite length_app.
  specialize (IH (Some (as_float (Objective_Function_Value row)))).
  cbv iota in IH. destruct pv as [p|]; cbn [List.length app].
  - rewrite annotate_row_length. destruct (p =? 0)%float; lia.
  - lia.
Qed.

(** X11. A group of [n] rows gets at most [n - 1] annotations; a group of a
    single row gets none. *)
Theorem annotations_bounded {T : Type} (group : list (run_record T)) :
  List.length (annotate_group group) <= List.length group - 1.
Proof. apply (annotate_from_length group None). Qed.

(** * White space around a line *)

Fixpoint all_space (s : string) : bool :=
  match s with
  | String c s' => Str.isspace c && all_space s'
  | EmptyString => true
  end.

Lemma lstrip_all_space (ws : string) : all_space ws = true -> Str.lstrip ws = "".
Proof.
  induction ws as [|c ws IH]; [reflexivity|].
  cbn [all_space Str.lstrip]. intros H. apply andb_true_iff in H as [-> H].
  apply IH, H.
Qed.

Lemma rstrip_all_space (ws : string) : all_space ws = true -> Str.rstrip ws = "".
Proof.
  induction ws as [|c ws IH]; [reflexivity|].
  cbn [all_space Str.rstrip]. intros H. apply andb_true_iff in H as [-> H].
  rewrite (IH H). reflexivity.
Qed.

Lemma rstrip_app_space (s ws : string) :
  all_space ws = true -> Str.rstrip (s ++ ws) = Str.rstrip s.
Proof.
  intros H. induction s as [|c s IH].
  - cbn [String.append]. rewrite (rstrip_all_space ws H). reflexivity.
  - cbn [String.append Str.rstrip]. rewrite IH. reflexivity.
Qed.

Lemma strip_app_space (s ws : string) :
  all_space ws = true -> Str.strip (s ++ ws) = Str.strip s.
Proof.
  intros H. unfold Str.strip. induction s as [|c s IH].
  - cbn [String.append]. rewrite (lstrip_all_space ws H). reflexivity.
  - cbn [String.append Str.lstrip]. destruct (Str.isspace c); [exact IH|].
    apply (rstrip_app_space (String c s) ws H).
Qed.

Lemma strip_space_app (ws s : string) :
  all_space ws = true -> Str.strip (ws ++ s) = Str.strip s.
Proof.
  unfold Str.strip. induction ws as [|c ws IH]; [reflexivity|].
  cbn [all_space String.append Str.lstrip]. intros H.
  apply andb_true_iff in H as [-> H]. apply IH, H.
Qed.

(** X12. White space before and after a line is without effect: the scanner
    treats a line padded with blanks, tabs or line ends on either side as it
    treats the line itself. *)
Theorem padding_is_ignored (py_float : string -> option float)
    (stem timestamp : string) (st : state) (data : list (run_record string))
    (before l after : string) :
  all_space before = true -> all_space after = true ->
  scan_line py_float stem timestamp st data (before ++ l ++ after)
  = scan_line py_float stem timestamp st data l.
Proof.
  intros Hb Ha.
  assert (E : Str.strip (before ++ l ++ after) = Str.strip l)
    by (rewrite (strip_space_app _ _ Hb); apply (strip_app_space _ _ Ha)).
  unfold scan_line. rewrite E. reflexivity.
Qed.

(** * [main]: lines 247-265 *)

(** [os.path.join(a, b)] with the separator "/". *)
Definition path_join (a b : string) : string :=
  if Str.startswith "/" b then b
  else if String.eqb a "" || ends_with "/" a then (a ++ b)%string
  else (a ++ "/" ++ b)%string.

(** What argparse stores for [--plot], declared with [type=bool]: None
    without the option, [bool(text)] with it. *)
Definition plot_value (given : option string) : option bool :=
  match given with
  | Some text => Some (negb (String.eqb text ""))
  | None => None
  end.

(** What [main] does to the file system, in order; a plot function is named
    with the columns of the table it is handed. *)
Inductive effect : Type :=
| Makedirs (path : string)
| To_csv (path : string) (header : list string)
         (body : list (run_record (option Z)))
| Objective_function_plots (table_columns : list string) (output_directory : string)
| Execution_time_variation_plot (table_columns : list string)
                                (output_directory : string).

Section Main.

Variable py_float : string -> option float.
Variable datetime64 : N -> N -> N -> N -> N -> N -> option Z.
Variable argsort : list Z -> list nat.

(** The two plot functions, for what [main] sees of them: handed a table and
    a directory, each returns (None) or raises. *)
Variable generate_objective_function_plots :
  DataFrame (option Z) -> string -> option exn.
Variable generate_execution_time_variation_plot :
  DataFrame (option Z) -> string -> option exn.

(** The table after line 151 has run on it. *)
Definition with_relative_change (df : DataFrame (option Z)) : DataFrame (option Z) :=
  mk_frame (columns df ++ ["Relative Change"]) (index df) (rows df).

(** [main] for the files under [args.input_dir]: the effects carried out and
    the exception it ends with, if any.  [current_timestamp] is the text
    [datetime.now().strftime] returns. *)
Definition main_effects (output_dir : string) (plot : option string)
    (current_timestamp : string) (files : list log_file)
  : list effect * option exn :=
  let results_dir := path_join output_dir current_timestamp in
  match process_files py_float datetime64 argsort files with
  | Err e => ([Makedirs results_dir], Some e)
  | Ok performance_df =>
      let csv_path := path_join results_dir "results.csv" in
      let written :=
        [Makedirs results_dir;
         To_csv csv_path (columns performance_df) (rows performance_df)] in
      match plot_value plot with
      | Some true =>
          match generate_objective_function_plots performance_df results_dir with
          | Some e =>
              (written
               ++ [Objective_function_plots (columns performance_df) results_dir],
               Some e)
          | None =>
              (written
               ++ [Objective_function_plots (columns performance_df) results_dir;
                   Execution_time_variation_plot
                     (columns (with_relative_change performance_df)) results_dir],
               generate_execution_time_variation_plot
                 (with_relative_change performance_df) results_dir)
          end
      | _ => (written, None)
      end
  end.

(** X13. Any text given to [--plot] other than the empty one turns the plots
    on, "False" and "0" included: after the CSV file, written with the six
    columns of a record, the first plot function is called; if it raises,
    [main] ends with its exception and the second is not called; if it
    returns, the second is called on the table with the Relative Change
    column, and [main] ends as that call ends. *)
Theorem any_plot_text_plots (output_dir text current_timestamp : string)
    (files : list log_file) (df : DataFrame (option Z)) :
  text <> "" ->
  process_files py_float datetime64 argsort files = Ok df ->
  let results_dir := path_join output_dir current_timestamp in
  let written :=
    [Makedirs results_dir;
     To_csv (path_join results_dir "results.csv") record_keys (rows df);
     Objective_function_plots record_keys results_dir] in
  main_effects output_dir (Some text) current_timestamp files
  = match generate_objective_function_plots df results_dir with
    | Some e => (written, Some e)
    | None =>
        (written
         ++ [Execution_time_variation_plot (record_keys ++ ["Relative Change"])
               results_dir],
         generate_execution_time_variation_plot (with_relative_change df)
           results_dir)
    end.
Proof.
  intros Ht Hp results_dir written. unfold main_effects. rewrite Hp.
  assert (Ec : columns df = record_keys).
  { unfold process_files in Hp.
    destruct (scan_files py_float [] files) as [[|r data]|e]; cbn [bind] in Hp;
      try discriminate.
    injection Hp as <-. reflexivity. }
  unfold plot_value.
  destruct (String.eqb text "") eqn:E; [apply String.eqb_eq in E; contradiction|].
  cbn [negb]. fold results_dir.
  destruct (generate_objective_function_plots df results_dir);
    unfold with_relative_change; cbn [columns]; rewrite Ec; reflexivity.
Qed.

(** X14. When the scan fails, [main] has made the results directory and
    nothing else: no CSV file is written and no plot is drawn, whatever
    [--plot] says, and the exception of [process_files] ends the run. *)
Theorem failed_scan_leaves_empty_directory (output_dir current_timestamp : string)
    (plot : option string) (files : list log_file) (e : exn) :
  process_files py_float datetime64 argsort files = Err e ->
  main_effects output_dir plot current_timestamp files
  = ([Makedirs (path_join output_dir current_timestamp)], Some e)
  /\ (e = ValueError \/ e = KeyError "Timestamp").
Proof.
  intros Hp. unfold main_effects. rewrite Hp. split; [reflexivity|].
  unfold process_files in Hp.
  destruct (scan_files py_float [] files) as [[|r data]|e'] eqn:E; cbn [bind] in Hp.
  - injection Hp as <-. now right.
  - discriminate.
  - injection Hp as <-. left. apply (scan_files_error _ _ _ _ E).
Qed.

End Main.

(** ** The further properties on sample logs *)

Definition timeless_log : log_file :=
  mk_log "run_2024-03-05_10-20-30"
         ["./instances/a01"; "Is solution feasible: true";
          "Objective function value: 3"].

Definition two_records : list (run_record string) :=
  [first_record; second_record].

Lemma records_bounded_by_time_lines_witness :
  scan_files float_plain [] [two_cycle_log] = Ok two_records
  /\ List.length two_records
     <= List.length (time_lines (flat_map content [two_cycle_log])).
Proof.
  assert (H : scan_files float_plain [] [two_cycle_log] = Ok two_records)
    by (vm_compute; reflexivity).
  split; [exact H|].
  exact (records_bounded_by_time_lines float_plain [two_cycle_log] two_records H).
Defined.

Lemma collected_records_are_well_formed_witness :
  scan_files float_plain [] [two_cycle_log] = Ok two_records
  /\ Forall well_formed two_records.
Proof.
  assert (H : scan_files float_plain [] [two_cycle_log] = Ok two_records)
    by (vm_compute; reflexivity).
  split; [exact H|].
  exact (collected_records_are_well_formed float_plain [two_cycle_log] two_records H).
Defined.

Lemma process_files_raises_witness :
  process_files float_plain datetime64_s argsort_stable [broken_log] = Err ValueError
  /\ ((ValueError = ValueError
       /\ scan_files float_plain [] [broken_log] = Err ValueError)
      \/ (ValueError = KeyError "Timestamp"
          /\ scan_files float_plain [] [broken_log] = Ok [])).
Proof.
  assert (H : process_files float_plain datetime64_s argsort_stable [broken_log]
              = Err ValueError) by (vm_compute; reflexivity).
  split; [exact H|].
  exact (process_files_raises float_plain datetime64_s argsort_stable [broken_log]
           ValueError H).
Defined.

Lemma no_time_line_no_table_witness :
  (forall (f : log_file) (l : string),
      In f [timeless_log] -> In l (content f) -> is_time_line l = false)
  /\ exists e : exn,
       process_files float_plain datetime64_s argsort_stable [timeless_log] = Err e
       /\ (e = ValueError \/ e = KeyError "Timestamp").
Proof.
  assert (H : forall (f : log_file) (l : string),
             In f [timeless_log] -> In l (content f) -> is_time_line l = false).
  { intros f l [<-|[]] [<-|[<-|[<-|[]]]]; vm_compute; reflexivity. }
  split; [exact H|].
  exact (no_time_line_no_table float_plain datetime64_s argsort_stable
           [timeless_log] H).
Defined.

Lemma table_rows_follow_index_witness :
  sorts argsort_stable
  /\ process_files float_plain datetime64_s argsort_stable [undated_log; two_cycle_log]
     = Ok sample_table
  /\ index sample_table = [1; 2; 0]
  /\ exists data : list (run_record string),
       scan_files float_plain [] [undated_log; two_cycle_log] = Ok data
       /\ columns sample_table = record_keys
       /\ Permutation (index sample_table) (seq 0 (List.length data))
       /\ Forall2 same_cells (rows sample_table)
                   (take (index sample_table) (map (parse_cell datetime64_s) data))
       /\ List.length (rows sample_table) = List.length data.
Proof.
  assert (H : process_files float_plain datetime64_s argsort_stable
                [undated_log; two_cycle_log] = Ok sample_table)
    by (vm_compute; reflexivity).
  split; [exact argsort_stable_sorts|]. split; [exact H|].
  split; [vm_compute; reflexivity|].
  exact (table_rows_follow_index float_plain datetime64_s argsort_stable
           [undated_log; two_cycle_log] sample_table argsort_stable_sorts H).
Defined.

Lemma padding_is_ignored_witness :
  all_space ("  " ++ tab) = true
  /\ all_space (String "013" nl) = true
  /\ scan_line float_plain "run" "Unknown" defaults []
       (("  " ++ tab) ++ "Execution time: 2 s" ++ String "013" nl)
     = scan_line float_plain "run" "Unknown" defaults [] "Execution time: 2 s".
Proof.
  assert (H1 : all_space ("  " ++ tab) = true) by (vm_compute; reflexivity).
  assert (H2 : all_space (String "013" nl) = true) by (vm_compute; reflexivity).
  split; [exact H1|]. split; [exact H2|].
  exact (padding_is_ignored float_plain "run" "Unknown" defaults []
           ("  " ++ tab) "Execution time: 2 s" (String "013" nl) H1 H2).
Defined.

(** Plot functions for the samples: the first refuses a table with a dollar
    sign in an instance name, the second always returns. *)
Definition sample_objective_plots (df : DataFrame (option Z)) (dir : string)
  : option exn :=
  if existsb (fun r => has "$" (Instance r)) (rows df) then Some ValueError else None.

Definition sample_execution_plot (df : DataFrame (option Z)) (dir : string)
  : option exn := None.

Lemma any_plot_text_plots_witness :
  "False" <> ""
  /\ process_files float_plain datetime64_s argsort_stable [undated_log; two_cycle_log]
     = Ok sample_table
  /\ main_effects float_plain datetime64_s argsort_stable sample_objective_plots
       sample_execution_plot "out" (Some "False") "2024-06-01_12-00-00"
       [undated_log; two_cycle_log]
     = ([Makedirs "out/2024-06-01_12-00-00";
         To_csv "out/2024-06-01_12-00-00/results.csv" record_keys
                (rows sample_table);
         Objective_function_plots record_keys "out/2024-06-01_12-00-00";
         Execution_time_variation_plot (record_keys ++ ["Relative Change"])
           "out/2024-06-01_12-00-00"],
        None).
Proof.
  assert (H1 : "False" <> "") by discriminate.
  assert (H2 : process_files float_plain datetime64_s argsort_stable
                 [undated_log; two_cycle_log] = Ok sample_table)
    by (vm_compute; reflexivity).
  split; [exact H1|]. split; [exact H2|].
  exact (any_plot_text_plots float_plain datetime64_s argsort_stable
           sample_objective_plots sample_execution_plot "out" "False"
           "2024-06-01_12-00-00" [undated_log; two_cycle_log] sample_table H1 H2).
Defined.

Lemma failed_scan_leaves_empty_directory_witness :
  process_files float_plain datetime64_s argsort_stable [] = Err (KeyError "Timestamp")
  /\ main_effects float_plain datetime64_s argsort_stable sample_objective_plots
       sample_execution_plot "out" (Some "True") "2024-06-01_12-00-00" []
     = ([Makedirs "out/2024-06-01_12-00-00"], Some (KeyError "Timestamp"))
  /\ (KeyError "Timestamp" = ValueError
      \/ KeyError "Timestamp" = KeyError "Timestamp").
Proof.
  assert (H : process_files float_plain datetime64_s argsort_stable []
              = Err (KeyError "Timestamp")) by reflexivity.
  split; [exact H|].
  exact (failed_scan_leaves_empty_directory float_plain datetime64_s argsort_stable
           sample_objective_plots sample_execution_plot
           "out" "2024-06-01_12-00-00" (Some "True") [] (KeyError "Timestamp") H).
Defined.

(** * Stems and tables without a date *)

Fixpoint no_digit (s : string) : bool :=
  match s with
  | String c s' => negb (in_range "0" "9" c) && no_digit s'
  | EmptyString => true
  end.

Lemma match_needs_digit (c : ascii) (s : string) :
  in_range "0" "9" c = false -> re_match timestamp_pattern (String c s) = None.
Proof.
  intros H. unfold re_match, timestamp_pattern, seq_re, d4, d2, digit.
  cbn [fold_right rmatch]. rewrite H. reflexivity.
Qed.

Lemma match_timestamp_prefix (t post : string) :
  re_match timestamp_pattern t = Some (19, [t]) ->
  re_match timestamp_pattern (t ++ post) = Some (19, [t]).
Proof.
  unfold re_match, timestamp_pattern, seq_re, d4, d2, digit.
  cbn [fold_right rmatch].
  do 19 (destruct t as [|? t]; [discriminate|];
         cbn [String.append];
         match goal with
         | |- (if ?b then _ else _) = _ -> _ => destruct b eqn:?; [|discriminate]
         end).
  cbn [app]. intros H.
  assert (Et : t = "").
  { match type of H with
    | Some (_, [String.substring 0 ?m ?u]) = _ =>
        replace m with 19 in H by (cbn [String.length]; lia)
    end.
    cbn [String.substring] in H.
    replace (String.substring 0 0 t) with EmptyString in H by (destruct t; reflexivity).
    congruence. }
  subst t. cbn [String.append]. clear H.
  match goal with
  | |- Some (?n, [String.substring 0 ?m ?u]) = _ =>
      replace n with 19 by (cbn [String.length]; lia);
      replace m with 19 by (cbn [String.length]; lia)
  end.
  cbn [String.substring].
  replace (String.substring 0 0 post) with EmptyString by (destruct post; reflexivity).
  reflexivity.
Qed.

(** X15. A stem that holds a full match of the pattern after a text without
    digits is filed under that match, whatever follows it: the first match
    from the left is the one taken. *)
Theorem timestamp_after_name (name t post : string) :
  no_digit name = true ->
  re_match timestamp_pattern t = Some (19, [t]) ->
  timestamp_of (name ++ t ++ post) = t.
Proof.
  intros Hn Ht. unfold timestamp_of.
  induction name as [|c name IH].
  - cbn [String.append].
    pose proof (match_timestamp_prefix t post Ht) as Hm.
    destruct (t ++ post)%string as [|d u]; cbn [re_search]; rewrite Hm; reflexivity.
  - cbn [no_digit] in Hn. apply andb_true_iff in Hn as [Hc Hn].
    apply negb_true_iff in Hc. cbn [String.append re_search].
    rewrite (match_needs_digit c _ Hc). apply IH, Hn.
Qed.

Lemma take_nil {A : Type} (ix : list nat) : take ix (@nil A) = [].
Proof.
  induction ix as [|i ix IH]; [reflexivity|].
  rewrite take_cons, IH. destruct i; reflexivity.
Qed.

Lemma filter_all {A : Type} (p : A -> bool) (l : list A) :
  Forall (fun x => p x = true) l -> filter p l = l.
Proof.
  induction 1 as [|x l Hx _ IH]; [reflexivity|].
  cbn [filter]. rewrite Hx, IH. reflexivity.
Qed.

Section Undated.

Variable py_float : string -> option float.
Variable datetime64 : N -> N -> N -> N -> N -> N -> option Z.
Variable argsort : list Z -> list nat.

Lemma scan_line_timestamp (stem timestamp : string) (st st' : state)
    (data data' : list (run_record string)) (l : string) :
  scan_line py_float stem timestamp st data l = Ok (st', data') ->
  Forall (fun r => Timestamp r = "Unknown") data -> timestamp = "Unknown" ->
  Forall (fun r => Timestamp r = "Unknown") data'.
Proof.
  destruct (line_shape l) as [H|[H|[H|[H|(H1 & H2 & H3 & H4)]]]].
  - rewrite (scan_instance_line _ _ _ _ _ _ H). intros [= <- <-]. trivial.
  - rewrite (scan_feasible_line _ _ _ _ _ _ H). intros [= <- <-]. trivial.
  - rewrite (scan_objective_line _ _ _ _ _ _ H).
    destruct (float_of py_float (value_text l)); cbn [bind]; [|discriminate].
    intros [= <- <-]. trivial.
  - rewrite (scan_time_line _ _ _ _ _ _ H).
    destruct (float_of py_float (time_token l)); cbn [bind]; [|discriminate].
    destruct (instance_name st) as [[|c n]|]; intros [= <- <-]; trivial.
    intros Hd Ht. apply Forall_app. split; [exact Hd|].
    constructor; [exact Ht|constructor].
  - rewrite (scan_other_line _ _ _ _ _ _ H1 H2 H3 H4). intros [= <- <-]. trivial.
Qed.

Lemma scan_lines_timestamp (stem timestamp : string) (lines : list string) :
  forall (st st' : state) (data data' : list (run_record string)),
  scan_lines py_float stem timestamp st data lines = Ok (st', data') ->
  Forall (fun r => Timestamp r = "Unknown") data -> timestamp = "Unknown" ->
  Forall (fun r => Timestamp r = "Unknown") data'.
Proof.
  induction lines as [|l lines IH]; intros st st' data data'; cbn [scan_lines].
  - intros [= <- <-]. trivial.
  - destruct (scan_line py_float stem timestamp st data l) as [[st1 d1]|e] eqn:E;
      cbn [bind fst snd]; [|discriminate].
    intros Hr Hd Ht. apply (IH _ _ _ _ Hr); [|exact Ht].
    apply (scan_line_timestamp _ _ _ _ _ _ _ E Hd Ht).
Qed.

Lemma scan_files_undated (files : list log_file) :
  Forall (fun f => re_search timestamp_pattern (stem f) = None) files ->
  forall data data' : list (run_record string),
  scan_files py_float data files = Ok data' ->
  Forall (fun r => Timestamp r = "Unknown") data ->
  Forall (fun r => Timestamp r = "Unknown") data'.
Proof.
  induction 1 as [|f files Hf _ IH]; intros data data'; cbn [scan_files].
  - intros [= <-]. trivial.
  - unfold scan_file.
    destruct (scan_lines py_float (stem f) (timestamp_of (stem f)) defaults data
                (content f)) as [[st1 d1]|e] eqn:E; cbn [bind fst snd];
      [|discriminate].
    intros Hr Hd. apply (IH _ _ Hr).
    apply (scan_lines_timestamp _ _ _ _ _ _ _ E Hd).
    unfold timestamp_of. rewrite Hf. reflexivity.
Qed.

(** X16. When no stem holds a match of the pattern, the table returned keeps
    the records in the order they were collected, each with a missing
    timestamp, whatever the sort does with the values it is given. *)
Theorem undated_files_keep_collection_order (files : list log_file)
    (df : DataFrame (option Z)) :
  Forall (fun f => re_search timestamp_pattern (stem f) = None) files ->
  process_files py_float datetime64 argsort files = Ok df ->
  exists data : list (run_record string),
    scan_files py_float [] files = Ok data
    /\ rows df = map (parse_cell datetime64) data
    /\ Forall (fun r => Timestamp r = None) (rows df).
Proof.
  intros Hf. unfold process_files.
  destruct (scan_files py_float [] files) as [data|e] eqn:E; cbn [bind];
    [|discriminate].
  pose proof (scan_files_undated files Hf [] data E (Forall_nil _)) as Hu.
  destruct data as [|r data]; [discriminate|].
  assert (Ep : parse_timestamps datetime64 (frame_of_records (r :: data))
               = Ok (mk_frame record_keys (seq 0 (List.length (r :: data)))
                              (map (parse_cell datetime64) (r :: data))))
    by reflexivity.
  rewrite Ep. clear Ep. revert Hu. generalize (r :: data). intros rs Hu.
  cbn [bind]. intros [= <-]. exists rs. split; [reflexivity|].
  assert (Hn : Forall (fun r => Timestamp r = None) (map (parse_cell datetime64) rs)).
  { apply Forall_map. eapply Forall_impl; [|exact Hu].
    intros a Ha. cbn [parse_cell Timestamp]. rewrite Ha. reflexivity. }
  match goal with |- context [sort_values argsort ?d] =>
    destruct (sort_values_rows argsort d) as (ks & Hk & ->) end.
  cbn [rows] in *.
  assert (Ed : filter dated (map (parse_cell datetime64) rs) = []).
  { apply filter_none. rewrite Forall_forall in Hn. intros x Hx.
    unfold dated. rewrite (Hn x Hx). reflexivity. }
  assert (Eu : filter undated (map (parse_cell datetime64) rs)
               = map (parse_cell datetime64) rs).
  { apply filter_all. eapply Forall_impl; [|exact Hn].
    intros a Ha. unfold undated, dated. rewrite Ha. reflexivity. }
  rewrite Ed, Eu, take_nil. split; [reflexivity|exact Hn].
Qed.

End Undated.

Lemma undated_files_keep_collection_order_witness :
  Forall (fun f => re_search timestamp_pattern (stem f) = None)
         [undated_log; mk_log "more notes" second_cycle]
  /\ exists df : DataFrame (option Z),
       process_files float_plain datetime64_s argsort_reversing
         [undated_log; mk_log "more notes" second_cycle] = Ok df
       /\ map Instance (rows df) = ["a01"; "b02"]
       /\ exists data : list (run_record string),
            scan_files float_plain []
              [undated_log; mk_log "more notes" second_cycle] = Ok data
            /\ rows df = map (parse_cell datetime64_s) data
            /\ Forall (fun r => Timestamp r = None) (rows df).
Proof.
  assert (H1 : Forall (fun f => re_search timestamp_pattern (stem f) = None)
                      [undated_log; mk_log "more notes" second_cycle])
    by (repeat constructor).
  split; [exact H1|]. eexists. split; [vm_compute; reflexivity|].
  split; [vm_compute; reflexivity|].
  refine (undated_files_keep_collection_order float_plain datetime64_s
            argsort_reversing [undated_log; mk_log "more notes" second_cycle] _
            H1 _).
  vm_compute. reflexivity.
Defined.

Lemma timestamp_after_name_witness :
  no_digit "instA_" = true
  /\ re_match timestamp_pattern "2024-01-01_00-00-00"
     = Some (19, ["2024-01-01_00-00-00"])
  /\ timestamp_of "instA_2024-01-01_00-00-00_v2_2025-01-01_00-00-00"
     = "2024-01-01_00-00-00".
Proof.
  assert (H1 : no_digit "instA_" = true) by reflexivity.
  assert (H2 : re_match timestamp_pattern "2024-01-01_00-00-00"
               = Some (19, ["2024-01-01_00-00-00"])) by reflexivity.
  split; [exact H1|]. split; [exact H2|].
  exact (timestamp_after_name "instA_" "2024-01-01_00-00-00"
           "_v2_2025-01-01_00-00-00" H1 H2).
Defined.
